(** * Prisma client tooling: annotation emitter, placeholder module, e2e orchestrator

    A shallow embedding of

    - [packages/client/src/generation/utils/buildNFTAnnotations.ts]
    - [packages/cli/prisma-client/scripts/default-index.js]
    - [packages/client/tests/e2e/_utils/run.ts]

    JavaScript strings are [string]; plain objects used as maps
    ([process.env], the [dependencies] object of a manifest) are [gmap]s
    keyed by strings; effectful code of the orchestrator is written in a
    small state-and-exception monad. *)

From Stdlib Require Import ZArith Lia Bool Ascii String List.
From stdpp Require Import base option strings list gmap.

#[local] Set Warnings "-register-all".
#[local] Open Scope string_scope.
#[local] Arguments String.append !s1 s2 : simpl nomatch.

(* ===================================================================== *)
(** ** JavaScript strings *)
(* ===================================================================== *)

Module JS.

  (** Characters that cannot be written inside a string literal here. *)
Definition dquote_char : ascii := "034"%char.
Definition backslash_char : ascii := "092"%char.
Definition newline_char : ascii := "010"%char.
Definition slash_char : ascii := "/"%char.

Definition dquote : string := String dquote_char "".
Definition nl : string := String newline_char "".

  (** [s.startsWith(p)] *)
Fixpoint startsWith (s p : string) {struct p} : bool :=
    match p, s with
    | "", _ => true
    | String a p', String b s' => if Ascii.eqb a b then startsWith s' p' else false
    | String _ _, "" => false
    end.

  (** [s.includes(a)]: [a] occurs in [s] as a contiguous substring. *)
Fixpoint includes (s a : string) : bool :=
    startsWith s a ||
    match s with
    | "" => false
    | String _ s' => includes s' a
    end.

  (** Drop the first [n] characters. *)
Fixpoint skip (n : nat) (s : string) : string :=
    match n, s with
    | O, _ => s
    | S n', String _ s' => skip n' s'
    | S _, "" => ""
    end.

  (** [s.replace(pat, rep)] with a string pattern: only the first
      occurrence of [pat] is replaced. *)
Fixpoint replace (s pat rep : string) : string :=
    if startsWith s pat then rep ++ skip (String.length pat) s
    else match s with
         | "" => ""
         | String c s' => String c (replace s' pat rep)
         end.

  (** [arr.join(sep)] *)
Fixpoint join (sep : string) (arr : list string) : string :=
    match arr with
    | [] => ""
    | [x] => x
    | x :: rest => x ++ sep ++ join sep rest
    end.

  (** A string is truthy unless it is empty. *)
Definition truthy (s : string) : bool :=
    match s with "" => false | _ => true end.

  (** Truthiness of a value that may be [undefined]. *)
Definition truthy_opt (o : option string) : bool :=
    match o with Some s => truthy s | None => false end.

  (** The propositional reading of [includes]. *)
Definition Substring (a s : string) : Prop :=
    exists pre suf : string, s = pre ++ a ++ suf.

End JS.

(* ===================================================================== *)
(** ** [JSON.stringify] on strings *)
(* ===================================================================== *)

Module JSON.

Definition hex_digit (n : N) : ascii :=
    match n with
    | 0 => "0" | 1 => "1" | 2 => "2" | 3 => "3" | 4 => "4" | 5 => "5"
    | 6 => "6" | 7 => "7" | 8 => "8" | 9 => "9" | 10 => "a" | 11 => "b"
    | 12 => "c" | 13 => "d" | 14 => "e" | _ => "f"
    end%N%char.

  (** ECMAScript QuoteJSONString, one code unit at a time: the quote and
      the backslash are escaped, control characters below U+0020 get
      their short escape or a [\u00xx] escape, everything else is copied.
      Strings are byte strings here, so a byte of a multi-byte character
      is copied as it is. *)
Definition escape_char (c : ascii) : string :=
    let n := N_of_ascii c in
    if (n =? 34)%N then String JS.backslash_char JS.dquote
    else if (n =? 92)%N then String JS.backslash_char (String JS.backslash_char "")
    else if (n =? 8)%N then String JS.backslash_char "b"
    else if (n =? 9)%N then String JS.backslash_char "t"
    else if (n =? 10)%N then String JS.backslash_char "n"
    else if (n =? 12)%N then String JS.backslash_char "f"
    else if (n =? 13)%N then String JS.backslash_char "r"
    else if (n <? 32)%N then
      String JS.backslash_char
        (String "u" (String "0" (String "0"
           (String (hex_digit (n / 16)) (String (hex_digit (n mod 16)) "")))))
    else String c "".

Fixpoint escape (s : string) : string :=
    match s with
    | "" => ""
    | String c s' => escape_char c ++ escape s'
    end.

  (** [JSON.stringify(s)] for a string [s]. *)
Definition stringify (s : string) : string :=
    JS.dquote ++ escape s ++ JS.dquote.

End JSON.

(* ===================================================================== *)
(** ** Node's [path] module (POSIX flavour) *)
(* ===================================================================== *)

Module path.

  (** [s.split('/')]: the segments between separators, never empty. *)
Fixpoint segments (s : string) : list string :=
    match s with
    | "" => [""]
    | String c s' =>
        if Ascii.eqb c JS.slash_char then "" :: segments s'
        else match segments s' with
             | [] => [String c ""]
             | seg :: rest => String c seg :: rest
             end
    end.

  (** One step of [normalizeString]: [res] holds the segments kept so far,
      last one first. *)
Definition normalize_step (allowAboveRoot : bool) (res : list string) (seg : string)
    : list string :=
    if String.eqb seg "" || String.eqb seg "." then res
    else if String.eqb seg ".." then
      match res with
      | [] => if allowAboveRoot then [".."] else []
      | last :: rest =>
          if String.eqb last ".." then (if allowAboveRoot then ".." :: res else res)
          else rest
      end
    else seg :: res.

Definition normalizeString (p : string) (allowAboveRoot : bool) : string :=
    JS.join "/" (rev (fold_left (normalize_step allowAboveRoot) (segments p) [])).

  (** Last character of a string, if any. *)
Fixpoint last_char (s : string) : option ascii :=
    match s with
    | "" => None
    | String c "" => Some c
    | String _ s' => last_char s'
    end.

Definition is_slash (o : option ascii) : bool :=
    match o with Some c => Ascii.eqb c JS.slash_char | None => false end.

Definition first_char (s : string) : option ascii :=
    match s with "" => None | String c _ => Some c end.

  (** [path.normalize(p)] *)
Definition normalize (p : string) : string :=
    match p with
    | "" => "."
    | _ =>
        let isAbsolute := is_slash (first_char p) in
        let trailingSeparator := is_slash (last_char p) in
        let p' := normalizeString p (negb isAbsolute) in
        match p' with
        | "" => if isAbsolute then "/" else if trailingSeparator then "./" else "."
        | _ =>
            let p'' := if trailingSeparator then p' ++ "/" else p' in
            if isAbsolute then "/" ++ p'' else p''
        end
    end.

  (** [path.join(...args)]: the non-empty arguments joined by ["/"], then
      normalized. *)
Definition join (args : list string) : string :=
    match filter (fun a => JS.truthy a = true) args with
    | [] => "."
    | parts => normalize (JS.join "/" parts)
    end.

End path.

(* ===================================================================== *)
(** ** JavaScript values *)
(* ===================================================================== *)

(** Plain data as it appears in JSON documents and configuration objects.
    An object is a finite map from property names to values; [undefined]
    is the absence of a value ([None]). *)
Inductive JSValue : Type :=
| JNull
| JBool (b : bool)
| JNum (n : Z)
| JStr (s : string)
| JArr (items : list JSValue)
| JObj (props : gmap string JSValue).

(* ===================================================================== *)
(** ** The annotation emitter ([buildNFTAnnotations.ts]) *)
(* ===================================================================== *)

Module NFT.

  (** [Platform] of [@prisma/get-platform] is a union of string literals;
      at run time a platform is a string. *)
Definition Platform : Type := string.

  (** [ClientEngineType] of [@prisma/internals]: the two engine types that
      ship a native asset, and any other value of the enum, for which
      [getQueryEngineFilename] falls through to [undefined]. *)
Inductive ClientEngineType : Type :=
  | Library
  | Binary
  | OtherEngine.

Definition ClientEngineType_eqb (a b : ClientEngineType) : bool :=
    match a, b with
    | Library, Library | Binary, Binary | OtherEngine, OtherEngine => true
    | _, _ => false
    end.

  (** Second argument of [getNodeAPIName]. *)
Inductive NodeAPIKind : Type := fs | url.

  (** [process.env] *)
Abbreviation Env := (gmap string string).

  (** The fields of [TSClientOptions] that [buildNFTAnnotations]
      destructures. *)
Record TSClientOptions : Type := mkTSClientOptions {
    dataProxy : bool;
    platforms : option (list Platform);
    esm : bool;
    generator : option JSValue;
  }.

  (** Build tool annotations in order to make Vercel upload our files. *)
Definition buildNFTAnnotation (esm : bool) (fileName relativeOutdir : string) : string :=
    let relativeFilePath := path.join [relativeOutdir; fileName] in
    if esm then
      JS.nl ++ "new URL(" ++ JSON.stringify (path.join ["."; fileName]) ++ ", import.meta.url)"
    else
      JS.nl ++ "path.join(__dirname, " ++ JSON.stringify fileName ++ ");" ++
      JS.nl ++ "path.join(process.cwd(), " ++ JSON.stringify relativeFilePath ++ ")".

Section WithImports.

    (** Imported from [@prisma/internals]; its body is not part of this
        development.  It is given the process environment because nothing
        here rules out that it consults it. *)
Variable getClientEngineType : Env -> option JSValue -> ClientEngineType.

    (** Imported from [@prisma/get-platform]. *)
Variable getNodeAPIName : Platform -> NodeAPIKind -> string.

    (** Retrieve the location of the current query engine; [None] is
        [undefined]. *)
Definition getQueryEngineFilename (engineType : ClientEngineType) (platform : Platform)
      : option string :=
      if ClientEngineType_eqb engineType Library then
        Some (getNodeAPIName platform fs)
      else if ClientEngineType_eqb engineType Binary then
        Some ("query-engine-" ++ platform)
      else None.

    (** Modelled from the spec: [map] of [helpers/blaze/map], which the
        emitter uses to "emit one annotation per resolved filename" for
        "each platform": the callback applied to every element, in order. *)
Definition blaze_map {A B : Type} (l : list A) (callback : A -> B) : list B :=
      List.map callback l.

Definition buildNFTAnnotations (env : Env) (opts : TSClientOptions)
        (relativeOutdir : string) : string :=
      let engineType := getClientEngineType env (generator opts) in
      (* We don't want to bundle engines when `--data-proxy` is enabled *)
      if dataProxy opts then ""
      else
        match platforms opts with
        | None => ""
        | Some platforms0 =>
            let platforms1 :=
              if JS.truthy_opt (env !! "NETLIFY") then ["rhel-openssl-1.0.x"]
              else platforms0 in
            let engineAnnotations :=
              JS.join JS.nl
                (blaze_map platforms1 (fun platform =>
                   let engineFilename := getQueryEngineFilename engineType platform in
                   if JS.truthy_opt engineFilename
                   then buildNFTAnnotation (esm opts) (default "" engineFilename)
                          relativeOutdir
                   else "")) in
            let schemaAnnotations :=
              buildNFTAnnotation (esm opts) "schema.prisma" relativeOutdir in
            engineAnnotations ++ schemaAnnotations
        end.

End WithImports.

End NFT.

(* ===================================================================== *)
(** ** The placeholder module ([default-index.js]) *)
(* ===================================================================== *)

Module Placeholder.

Inductive JSError : Type := Error (message : string).

  (** Result of evaluating [new C(...args)]. *)
Inductive Construct (A : Type) : Type :=
  | Constructed (instance : A)
  | Thrown (e : JSError).
Arguments Constructed {A} instance.
Arguments Thrown {A} e.

Definition not_initialized_message : string :=
    "@prisma/client did not initialize yet. Please run " ++ JS.dquote ++
    "prisma generate" ++ JS.dquote ++ " and try to import it again." ++ JS.nl ++
    "In case this error is unexpected for you, please report it in https://github.com/prisma/prisma/issues".

  (** [class PrismaClient { constructor() { throw new Error(...) } }]:
      the constructor declares no parameter and reads none. *)
Definition PrismaClient (args : list JSValue) : Construct JSValue :=
    Thrown (Error not_initialized_message).

End Placeholder.

(* ===================================================================== *)
(** ** The end-to-end test orchestrator ([tests/e2e/_utils/run.ts]) *)
(* ===================================================================== *)

Module E2E.

(** *** Command line *)

(** The object returned by [arg(...)]: a flag is [true], [false] or
    absent; [positional] is [args._]. *)
Record Args : Type := mkArgs {
  verbose : option bool;
  runInBand : option bool;
  skipBuild : option bool;
  skipPack : option bool;
  clean : option bool;
  positional : list string;
}.

(** [flag === true] *)
Definition is_true (flag : option bool) : bool :=
  match flag with Some true => true | _ => false end.

(** [flag ?? false] *)
Definition or_false (flag : option bool) : option bool :=
  match flag with Some b => Some b | None => Some false end.

(** *** External commands *)

(** The shell commands the script runs through [$]. *)
Inductive Cmd : Type :=
| DockerVersion        (* docker -v *)
| ComposeDown          (* docker compose -f docker-compose-clean.yml down --remove-orphans *)
| ComposeUpClean       (* docker compose -f docker-compose-clean.yml up clean *)
| ComposeUpPreClean    (* docker compose -f docker-compose-clean.yml up pre-clean *)
| SaveManifests        (* pnpm -r exec cp package.json "/tmp/$(basename $(pwd)).package.json" *)
| RestoreManifests     (* pnpm -r exec cp "/tmp/$(basename $(pwd)).package.json" package.json *)
| PnpmBuild            (* pnpm -r build *)
| PnpmPack             (* pnpm -r exec pnpm pack --pack-destination *)
| PnpmStorePath        (* pnpm store path *)
| DockerBuild          (* docker build -f standard.dockerfile -t prisma-e2e-test-runner . *)
| DockerRun (volumeArgs : string) (NAME : string)
                       (* docker run --rm <volumeArgs> -e "NAME=<NAME>" prisma-e2e-test-runner *)
| CatLogs (file : string). (* cat <file> *)

(** What the script cannot decide by itself: the file system layout, the
    module loader, the exit status of every external command, which may
    depend on the commands run before it, and what the external commands
    do to the files. *)
Record Host : Type := mkHost {
  monorepoRoot : string;
  readdir_packages : list string;          (* fs.readdir(<root>/packages) *)
  require : string -> option JSValue;      (* what the module loader yields for a
                                              path; [None]: it throws *)
  glob_steps : list string;                (* glob('../**/_steps.ts') *)
  dirname__ : string;                      (* __dirname *)
  path_dirname : string -> string;
  path_relative : string -> string -> string;
  path_resolve : list string -> string;
  exit_status : list (Cmd * Z) -> Cmd -> Z; (* given the commands run so far *)
  store_path : string;                     (* trimmed stdout of [pnpm store path] *)
  cwd : string;                            (* the working directory of the script's
                                              process, where [$] starts its shell *)
  pnpm_projects : list string;             (* the folders [pnpm -r exec] runs a command
                                              in, in the order the commands complete *)
  external_effect : list (Cmd * Z) -> Cmd -> Z -> gmap string JSValue -> gmap string JSValue;
                                           (* what a container, a build or a pack does
                                              to the files, and what a failing copy
                                              command has done when it fails, given the
                                              commands run so far and the exit status *)
}.

Inductive Exn : Type :=
| ProcessFailed (c : Cmd) (exitCode : Z)   (* a [ProcessOutput] thrown by [$] *)
| TypeError
| ModuleNotFound (p : string)
| JSError (message : string).

(** An argument of [console.log]. *)
Inductive LogArg : Type :=
| LStr (s : string)
| LNum (n : Z)
| LStrs (l : list string)
| LMessage (e : Exn)                       (* [e.message] *)
| LExn (e : Exn).

(** The world the script acts on.  A file holding a JSON document is
    identified with the document. *)
Record World : Type := mkWorld {
  files : gmap string JSValue;
  history : list (Cmd * Z);                (* commands run and their exit status,
                                              most recent first *)
  console : list (list LogArg);            (* most recent first *)
}.

(** *** A monad for effects, exceptions and [process.exit] *)

Inductive Result (A : Type) : Type :=
| Ok (a : A)
| Throw (e : Exn)
| Exit (code : Z).
Arguments Ok {A} a.
Arguments Throw {A} e.
Arguments Exit {A} code.

Definition M (A : Type) : Type := World -> Result A * World.

Definition ret {A} (a : A) : M A := fun w => (Ok a, w).

Definition bind {A B} (m : M A) (k : A -> M B) : M B :=
  fun w =>
    match m w with
    | (Ok a, w') => k a w'
    | (Throw e, w') => (Throw e, w')
    | (Exit c, w') => (Exit c, w')
    end.

Definition throw {A} (e : Exn) : M A := fun w => (Throw e, w).

(** [process.exit(code)] *)
Definition process_exit {A} (code : Z) : M A := fun w => (Exit code, w).

#[global] Instance M_ret : MRet M := @ret.
#[global] Instance M_bind : MBind M := fun A B k m => bind m k.

(** [try { body } catch (e) { handler e } finally { fin }]: the handler
    runs if the body throws; the finalizer runs after either, and its own
    failure replaces the pending completion.  [process.exit] ends the
    process on the spot. *)
Definition try_catch_finally {A} (body : M A) (handler : Exn -> M A) (fin : M unit) : M A :=
  fun w =>
    let '(r1, w1) := body w in
    let '(r2, w2) :=
      match r1 with
      | Throw e => handler e w1
      | _ => (r1, w1)
      end in
    match r2 with
    | Exit c => (Exit c, w2)
    | _ =>
        match fin w2 with
        | (Ok _, w3) => (r2, w3)
        | (Throw e, w3) => (Throw e, w3)
        | (Exit c, w3) => (Exit c, w3)
        end
    end.

Fixpoint mapM {A B} (f : A -> M B) (l : list A) : M (list B) :=
  match l with
  | [] => ret []
  | x :: rest => y ← f x; ys ← mapM f rest; ret (y :: ys)
  end.

Fixpoint forM_ {A} (l : list A) (f : A -> M unit) : M unit :=
  match l with
  | [] => ret tt
  | x :: rest => f x;; forM_ rest f
  end.

Definition when (b : bool) (m : M unit) : M unit :=
  if b then m else ret tt.

(** [console.log(...items)] *)
Definition console_log (items : list LogArg) : M unit :=
  fun w => (Ok tt, mkWorld (files w) (history w) (items :: console w)).

(** [liftE o e]: the value of [o], or throw [e]. *)
Definition liftE {A} (o : option A) (e : Exn) : M A :=
  match o with Some a => ret a | None => throw e end.

(** *** Files touched by the script *)

(** [path.join(monorepoRoot, 'packages', p)] *)
Definition packageFolder (h : Host) (p : string) : string :=
  path.join [monorepoRoot h; "packages"; p].

(** [path.join(p, 'package.json')] *)
Definition pkgJsonPath (folder : string) : string :=
  path.join [folder; "package.json"].

(** [basename]: the last segment of a path. *)
Definition basename (p : string) : string :=
  List.last (path.segments p) "".

(** ["/tmp/$(basename $(pwd)).package.json"].  The text is part of the
    command line [$] hands to the shell, so the shell substitutes
    [$(basename $(pwd))] before [pnpm] is started: [folder] is the
    working directory of the script, not that of a package. *)
Definition savedPath (folder : string) : string :=
  "/tmp/" ++ basename folder ++ ".package.json".

(** [cp src dst]; a missing source leaves the destination alone. *)
Definition cp (src dst : string) (fs : gmap string JSValue) : gmap string JSValue :=
  match fs !! src with
  | Some doc => <[dst := doc]> fs
  | None => fs
  end.

(** [pnpm -r exec cp package.json <saved>], when every copy succeeds:
    each project's manifest is copied, in turn, to the same file. *)
Definition saveCopies (h : Host) (fs : gmap string JSValue) : gmap string JSValue :=
  fold_left (fun fs' folder => cp (pkgJsonPath folder) (savedPath (cwd h)) fs')
            (pnpm_projects h) fs.

(** [pnpm -r exec cp <saved> package.json], when every copy succeeds:
    that file is copied to each project's manifest. *)
Definition restoreCopies (h : Host) (fs : gmap string JSValue) : gmap string JSValue :=
  fold_left (fun fs' folder => cp (savedPath (cwd h)) (pkgJsonPath folder) fs')
            (pnpm_projects h) fs.

(** What a command does to the files, given the commands run before it
    and its exit status.  [docker -v], [pnpm store path] and [cat] only
    print; the two copy commands, when they succeed, do what the script
    spells out; everything else is the host's. *)
Definition effect (h : Host) (hist : list (Cmd * Z)) (c : Cmd) (code : Z)
    (fs : gmap string JSValue) : gmap string JSValue :=
  match c with
  | DockerVersion | PnpmStorePath | CatLogs _ => fs
  | SaveManifests =>
      if (code =? 0)%Z then saveCopies h fs else external_effect h hist c code fs
  | RestoreManifests =>
      if (code =? 0)%Z then restoreCopies h fs else external_effect h hist c code fs
  | _ => external_effect h hist c code fs
  end.

(** Run a command and record it. *)
Definition spawn (h : Host) (c : Cmd) : M Z :=
  fun w =>
    let code := exit_status h (history w) c in
    (Ok code, mkWorld (effect h (history w) c code (files w)) ((c, code) :: history w)
                      (console w)).

(** [await $`...`]: a non-zero exit status is thrown. *)
Definition sh (h : Host) (c : Cmd) : M Z :=
  code ← spawn h c;
  if (code =? 0)%Z then ret code else throw (ProcessFailed c code).

(** [await $`...`.nothrow()] *)
Definition sh_nothrow (h : Host) (c : Cmd) : M Z := spawn h c.

(** [fs.writeFile(path, JSON.stringify(doc, null, 2))] *)
Definition writeFile (p : string) (doc : JSValue) : M unit :=
  fun w => (Ok tt, mkWorld (<[p := doc]> (files w)) (history w) (console w)).

(** *** Rewriting the manifests *)

(** Decimal notation of an array index. *)
Fixpoint nat_to_string_aux (fuel n : nat) (acc : string) : string :=
  match fuel with
  | O => acc
  | S fuel' =>
      let acc' := String (ascii_of_nat (48 + n mod 10)) acc in
      if (n / 10 =? 0)%nat then acc' else nat_to_string_aux fuel' (n / 10) acc'
  end.

Definition nat_to_string (n : nat) : string := nat_to_string_aux (S n) n "".

Definition index_keys (len : nat) : list string :=
  List.map nat_to_string (seq 0 len).

(** [Object.keys(v)]; [None] is the [TypeError] raised for [undefined]
    and [null].  The order of the keys of an object plays no role in what
    follows. *)
Definition Object_keys (v : option JSValue) : option (list string) :=
  match v with
  | None | Some JNull => None
  | Some (JObj props) => Some (map_to_list props).*1
  | Some (JArr items) => Some (index_keys (List.length items))
  | Some (JStr s) => Some (index_keys (String.length s))
  | Some (JBool _) | Some (JNum _) => Some []
  end.

(** [o.k]; the outer [None] is the [TypeError] raised when [o] is [null],
    the inner one is [undefined].  Only the property read by the script is
    of interest, and no primitive or array has it. *)
Definition get_prop (o : JSValue) (k : string) : option (option JSValue) :=
  match o with
  | JNull => None
  | JObj props => Some (props !! k)
  | _ => Some None
  end.

(** Position of an index key among the first [len] indices. *)
Definition index_of_key (k : string) (len : nat) : option nat :=
  List.find (fun i => String.eqb (nat_to_string i) k) (seq 0 len).

(** [o[k] = v] in strict mode: an object gets or replaces the property,
    an array replaces the element with that index (a named property on
    an array does not show in its JSON form), a primitive raises a
    [TypeError]. *)
Definition set_prop (o : JSValue) (k : string) (v : JSValue) : option JSValue :=
  match o with
  | JObj props => Some (JObj (<[k := v]> props))
  | JArr items =>
      Some (JArr (match index_of_key k (List.length items) with
                  | Some i => <[i := v]> items
                  | None => items
                  end))
  | _ => None
  end.

(** [`/tmp/${key.replace('@', '').replace('/', '-')}-0.0.0.tgz`] *)
Definition tarballPath (key : string) : string :=
  "/tmp/" ++ JS.replace (JS.replace key "@" "") "/" "-" ++ "-0.0.0.tgz".

(** Body of the inner loop, on the [dependencies] value. *)
Definition rewriteKey (deps : JSValue) (key : string) : option JSValue :=
  if JS.startsWith key "@prisma/" then set_prop deps key (JStr (tarballPath key))
  else Some deps.

Fixpoint rewriteKeys (deps : JSValue) (keys : list string) : option JSValue :=
  match keys with
  | [] => Some deps
  | key :: rest =>
      match rewriteKey deps key with
      | Some deps' => rewriteKeys deps' rest
      | None => None
      end
  end.

(** The inner loop on one loaded manifest object.  The [dependencies]
    object is mutated in place, so the manifest object sees the new
    entries under the same property. *)
Definition rewriteDependencies (pkgJson : JSValue) : option JSValue :=
  match get_prop pkgJson "dependencies" with
  | None => None
  | Some deps =>
      match Object_keys deps with
      | None => None
      | Some keys =>
          match deps, pkgJson with
          | Some d, JObj props =>
              match rewriteKeys d keys with
              | Some d' => Some (JObj (<["dependencies" := d']> props))
              | None => None
              end
          | _, _ => None
          end
      end
  end.

(** The outer loop: rewrite each object and write it to its manifest. *)
Fixpoint rewriteManifests (paths : list string) (objs : list JSValue) : M unit :=
  match paths, objs with
  | p :: paths', obj :: objs' =>
      obj' ← liftE (rewriteDependencies obj) TypeError;
      writeFile p obj';;
      rewriteManifests paths' objs'
  | _, _ => ret tt
  end.

(** *** The script *)

(** A [ProcessOutput] with the fixture name assigned to it.  A process
    ended by a signal has no exit code ([null]); the script treats that
    like any value other than 0, and it is represented by such a value. *)
Record JobResult : Type := mkJobResult {
  exitCode : Z;
  name : string;
}.

(** Lines 33 to 36: the defaults of the flags. *)
Definition withDefaults (args : Args) : Args :=
  mkArgs (or_false (verbose args)) (or_false (runInBand args))
         (or_false (skipBuild args)) (skipPack args)
         (or_false (clean args)) (positional args).

(** Lines 39 to 50.  [$.verbose] only selects what [zx] echoes. *)
Definition cleanUp (h : Host) (args : Args) : M unit :=
  when (is_true (verbose args)) (sh h DockerVersion;; ret tt);;
  console_log [LStr "🧹 Cleaning up old files"];;
  (if is_true (clean args)
   then sh h ComposeDown;; sh h ComposeUpClean
   else sh h ComposeDown;; sh h ComposeUpPreClean);;
  ret tt.

(** we provide a function that can revert modified package.json back *)
Definition restoreOriginal (h : Host) : M unit :=
  sh h RestoreManifests;; ret tt.

Definition allPackageFolders (h : Host) : list string :=
  List.map (packageFolder h) (readdir_packages h).

Definition allPkgJsonPaths (h : Host) : list string :=
  List.map pkgJsonPath (allPackageFolders h).

(** Lines 52 to 79: save the manifests, load the package objects and
    write the rewritten ones. *)
Definition prepareManifests (h : Host) : M unit :=
  console_log [LStr "🎠 Preparing e2e tests"];;
  (* this process will need to modify some package.json, we save copies *)
  sh h SaveManifests;;
  allPkgJson ← mapM (fun p => liftE (require h p) (ModuleNotFound p)) (allPackageFolders h);
  (* replace references to unbundled local packages with built and packaged tarballs *)
  rewriteManifests (allPkgJsonPaths h) allPkgJson.

(** The [try] block of lines 81 to 90. *)
Definition buildAndPack (h : Host) (args : Args) : M unit :=
  when (negb (is_true (skipBuild args)))
    (console_log [LStr "📦 Packing package tarballs"];;
     sh h PnpmBuild;; ret tt);;
  when (negb (is_true (skipPack args)))
    (sh h PnpmPack;; ret tt).

(** The [catch] block of lines 91 to 95. *)
Definition packFailed (e : Exn) : M unit :=
  console_log [LMessage e];;
  console_log [LStr "🛑 Failed to pack one or more of the packages"];;
  console_log [LStr "💡 Make sure to run `watch`, `dev` or `build`"];;
  throw e.

(** Lines 81 to 98. *)
Definition packTarballs (h : Host) (args : Args) : M unit :=
  try_catch_finally
    (buildAndPack h args)
    packFailed
    (restoreOriginal h (* when done, we restore the original package.json *)).

Definition dockerVolumes (h : Host) : list string :=
  List.map (fun p => "/tmp/" ++ p ++ "-0.0.0.tgz:/tmp/" ++ p ++ "-0.0.0.tgz")
           [JS.join "," (readdir_packages h); "prisma"]
  ++ [ path.join [monorepoRoot h; "packages"; "engines"] ++ ":/engines";
       path.join [monorepoRoot h; "packages"; "client"] ++ ":/client";
       path.join [monorepoRoot h; "packages"; "client"; "tests"; "e2e"] ++ ":/e2e";
       path.join [monorepoRoot h; "packages"; "client"; "tests"; "e2e"; ".cache"]
         ++ ":/root/.cache";
       store_path h ++ ":/root/.local/share/pnpm/store/v3" ].

(** [testStepFiles.map((p) => path.relative('..', path.dirname(p)))] *)
Definition discovered (h : Host) : list string :=
  List.map (fun p => path_relative h ".." (path_dirname h p)) (glob_steps h).

(** [e2eTestNames.filter((p) => args._.some((a) => p.includes(a)))],
    applied when [args._.length > 0]. *)
Definition selectTests (positional : list string) (e2eTestNames : list string) : list string :=
  if (0 <? List.length positional)%nat
  then List.filter (fun p => existsb (fun a => JS.includes p a) positional) e2eTestNames
  else e2eTestNames.

(** Lines 100 to 119: the fixtures to run and the volume arguments. *)
Definition discoverTests (h : Host) (args : Args) : M (list string * string) :=
  console_log [LStr "🐳 Starting tests in docker"];;
  (* tarball was created, ready to send it to docker and begin e2e tests *)
  let e2eTestNames := selectTests (positional args) (discovered h) in
  sh h PnpmStorePath;;
  let dockerVolumeArgs := JS.join " " (List.map (fun v => "-v " ++ v) (dockerVolumes h)) in
  sh h DockerBuild;;
  ret (e2eTestNames, dockerVolumeArgs).

(** The [--runInBand] loop over [dockerJobs.entries()]. *)
Fixpoint runJobsInBand (total : nat) (e2eTestNames : list string)
    (i : nat) (jobs : list (M Z)) (jobResults : list JobResult) : M (list JobResult) :=
  match jobs with
  | [] => ret jobResults
  | job :: rest =>
      console_log [LStr ("💡 Running test " ++ nat_to_string (i + 1) ++ "/" ++ nat_to_string total)];;
      code ← job;
      runJobsInBand total e2eTestNames (S i) rest
        (jobResults ++ [mkJobResult code (default "" (e2eTestNames !! i))])
  end.

(** [Promise.all(dockerJobs.map((job) => job()))] followed by the naming
    [map]: every job is started, in order, and the results are joined in
    that order once all have completed. *)
Definition runJobsInParallel (e2eTestNames : list string) (jobs : list (M Z))
  : M (list JobResult) :=
  codes ← mapM (fun job : M Z => job) jobs;
  ret (imap (fun i code => mkJobResult code (default "" (e2eTestNames !! i))) codes).

(** Lines 121 to 138. *)
Definition runJobs (h : Host) (args : Args) (e2eTestNames : list string)
    (dockerVolumeArgs : string) : M (list JobResult) :=
  let dockerJobs :=
    List.map (fun path => sh_nothrow h (DockerRun dockerVolumeArgs path)) e2eTestNames in
  if is_true (runInBand args)
  then console_log [LStr "🏃 Running tests in band"];;
       runJobsInBand (List.length dockerJobs) e2eTestNames 0 dockerJobs []
  else console_log [LStr "🏃 Running tests in parallel"];;
       runJobsInParallel e2eTestNames dockerJobs.

Definition logsPath (h : Host) (result : JobResult) : string :=
  path_resolve h [dirname__ h; ".."; name result; "LOGS.txt"].

Definition failed (r : JobResult) : bool := negb (exitCode r =? 0)%Z.
Definition passed (r : JobResult) : bool := (exitCode r =? 0)%Z.

(** Lines 140 to 160. *)
Definition report (h : Host) (args : Args) (jobResults : list JobResult) : M unit :=
  let failedJobResults := List.filter failed jobResults in
  let passedJobResults := List.filter passed jobResults in
  when (is_true (verbose args))
    (forM_ failedJobResults (fun result =>
       console_log [LStr ("🛑 " ++ name result ++ " failed with exit code"); LNum (exitCode result)];;
       sh h (CatLogs (logsPath h result));;
       ret tt (* sleep(50) *)));;
  (* let the tests run and gather a list of logs for containers that have failed *)
  if (0 <? List.length failedJobResults)%nat then
    let failedJobLogPaths := List.map (logsPath h) failedJobResults in
    console_log [LStr ("✅ " ++ nat_to_string (List.length passedJobResults) ++ "/" ++
                       nat_to_string (List.length jobResults) ++ " tests passed")];;
    console_log [LStr ("🛑 " ++ nat_to_string (List.length failedJobResults) ++ "/" ++
                       nat_to_string (List.length jobResults) ++ " tests failed");
                 LStrs failedJobLogPaths];;
    throw (JSError "Some tests exited with a non-zero exit code")
  else
    console_log [LStr ("✅ All " ++ nat_to_string (List.length passedJobResults) ++ "/" ++
                       nat_to_string (List.length jobResults) ++ " tests passed")].

(** The stages of [main] once the arguments are parsed. *)
Definition stages (h : Host) (args : Args) : M unit :=
  cleanUp h args;;
  prepareManifests h;;
  packTarballs h args;;
  tests ← discoverTests h args;
  jobResults ← runJobs h args tests.1 tests.2;
  report h args jobResults.

Definition main (h : Host) (parsed : string + Args) : M unit :=
  match parsed with
  | inl message => console_log [LStr message];; process_exit 1
  | inr args => stages h (withDefaults args)
  end.

(** [void main().catch((e) => { console.log(e); process.exit(1) })]: the
    exit code of the process and the world it leaves.  A run that neither
    throws nor calls [process.exit] ends with code 0.  The [SIGINT]
    handler of line 63 is outside the model. *)
Definition run (h : Host) (parsed : string + Args) (w : World) : Z * World :=
  match main h parsed w with
  | (Ok _, w') => (0%Z, w')
  | (Throw e, w') => (1%Z, mkWorld (files w') (history w') ([LExn e] :: console w'))
  | (Exit code, w') => (code, w')
  end.

End E2E.

(* ===================================================================== *)
(** ** Vocabulary of the statements *)
(* ===================================================================== *)

(** Every character of [s] satisfies [P]. *)
Fixpoint all_chars (P : ascii -> bool) (s : string) : bool :=
  match s with
  | "" => true
  | String c s' => P c && all_chars P s'
  end.

(** A character that [JSON.stringify] copies as it is. *)
Definition json_plain_char (c : ascii) : bool :=
  let n := N_of_ascii c in
  (32 <=? n)%N && negb (n =? 34)%N && negb (n =? 92)%N.

Definition not_slash (c : ascii) : bool := negb (Ascii.eqb c JS.slash_char).

(** A file name that is a single path segment and needs no escaping: it is
    not empty and holds no separator, quote, backslash or control
    character.  Every asset name built from a [Platform] literal is one. *)
Definition plain_filename (f : string) : bool :=
  JS.truthy f && all_chars (fun c => json_plain_char c && not_slash c) f.

(** *** Reading the annotations back

    The bundler finds the assets by the string literals of the emitted
    source text.  [literals] lists them, decoded, in order of appearance;
    [referenced] keeps the file name (last path segment) of each. *)

Inductive ScanState : Type :=
| Outside                                  (* not in a literal *)
| Inside (acc : string)                    (* in a literal, [acc] read so far *)
| Escaped (acc : string)                   (* just after a backslash *)
| Unicode (acc : string) (todo : nat) (v : N). (* in a [\u] escape, [todo] digits to go *)

Definition hex_value (c : ascii) : N :=
  let n := N_of_ascii c in
  if (48 <=? n)%N && (n <=? 57)%N then (n - 48)%N
  else if (97 <=? n)%N && (n <=? 102)%N then (n - 87)%N
  else if (65 <=? n)%N && (n <=? 70)%N then (n - 55)%N
  else 0%N.

(** The character a short escape stands for. *)
Definition unescape (c : ascii) : option ascii :=
  let n := N_of_ascii c in
  if (n =? 34)%N then Some c
  else if (n =? 92)%N then Some c
  else if (n =? 47)%N then Some c
  else if (n =? 98)%N then Some "008"%char
  else if (n =? 102)%N then Some "012"%char
  else if (n =? 110)%N then Some "010"%char
  else if (n =? 114)%N then Some "013"%char
  else if (n =? 116)%N then Some "009"%char
  else None.

Fixpoint scan (st : ScanState) (s : string) : list string :=
  match s with
  | "" => []
  | String c s' =>
      match st with
      | Outside =>
          if Ascii.eqb c JS.dquote_char then scan (Inside "") s' else scan Outside s'
      | Inside acc =>
          if Ascii.eqb c JS.dquote_char then acc :: scan Outside s'
          else if Ascii.eqb c JS.backslash_char then scan (Escaped acc) s'
          else scan (Inside (acc ++ String c "")) s'
      | Escaped acc =>
          match unescape c with
          | Some d => scan (Inside (acc ++ String d "")) s'
          | None =>
              if Ascii.eqb c "u" then scan (Unicode acc 4 0) s'
              else scan (Inside (acc ++ String c "")) s'
          end
      | Unicode acc todo v =>
          let v' := (16 * v + hex_value c)%N in
          match todo with
          | O | 1%nat => scan (Inside (acc ++ String (ascii_of_N v') "")) s'
          | S todo' => scan (Unicode acc todo' v') s'
          end
      end
  end.

Definition literals (text : string) : list string := scan Outside text.

(** The last segment of a path. *)
Definition path_basename (p : string) : string := List.last (path.segments p) "".

Definition referenced (text : string) : list string :=
  List.map path_basename (literals text).

(** A proper file name: a plain single segment other than ["."] and
    [".."]. *)
Definition proper_filename (f : string) : bool :=
  plain_filename f && negb (String.eqb f ".") && negb (String.eqb f "..").

Definition no_quote (c : ascii) : bool := negb (Ascii.eqb c JS.dquote_char).

(** The literals of one annotation. *)
Definition annotation_literals (esm : bool) (relativeOutdir fileName : string) : list string :=
  if esm then [path.join ["."; fileName]]
  else [fileName; path.join [relativeOutdir; fileName]].

(** The configuration with the module-format flag set to [b]. *)
Definition with_esm (b : bool) (opts : NFT.TSClientOptions) : NFT.TSClientOptions :=
  NFT.mkTSClientOptions (NFT.dataProxy opts) (NFT.platforms opts) b (NFT.generator opts).

(** *** The emitter's specification, as worded *)

Section EmitterSpecification.

Import NFT.

Variable getClientEngineType : Env -> option JSValue -> ClientEngineType.
Variable getNodeAPIName : Platform -> NodeAPIKind -> string.

Let emit := buildNFTAnnotations getClientEngineType getNodeAPIName.

(** The platforms the annotations are built for: on Netlify the given
    list is replaced. *)
Definition targetedPlatforms (env : Env) (platforms0 : list Platform) : list Platform :=
  if JS.truthy_opt (env !! "NETLIFY") then ["rhel-openssl-1.0.x"] else platforms0.

(** "Returns exactly the empty string when dataProxy is true or when
    platforms is undefined; for every supported engine type and every
    defined platform list, returns a non-empty string that contains, for
    each platform in the list, the engine asset filename of the pair." *)
Definition contains_every_platform_asset
    (env : Env) (opts : TSClientOptions) (relativeOutdir : string) : Prop :=
  (dataProxy opts = true \/ platforms opts = None -> emit env opts relativeOutdir = "") /\
  (forall platforms0,
      dataProxy opts = false -> platforms opts = Some platforms0 ->
      let engineType := getClientEngineType env (generator opts) in
      engineType = Library \/ engineType = Binary ->
      emit env opts relativeOutdir <> "" /\
      forall platform, In platform platforms0 ->
        exists f, getQueryEngineFilename getNodeAPIName engineType platform = Some f /\
                  JS.Substring f (emit env opts relativeOutdir)).

(** "For any two invocations with equal inputs, the returned text is
    identical, independent of the ambient environment." *)
Definition environment_independent
    (env1 env2 : Env) (opts : TSClientOptions) (relativeOutdir : string) : Prop :=
  emit env1 opts relativeOutdir = emit env2 opts relativeOutdir.

(** "For unsupported or absent configuration (dataProxy enabled,
    platforms absent, or an engine type that needs no asset) it returns an
    empty string." *)
Definition degrades_to_empty
    (env : Env) (opts : TSClientOptions) (relativeOutdir : string) : Prop :=
  dataProxy opts = true \/ platforms opts = None \/
  getClientEngineType env (generator opts) = OtherEngine ->
  emit env opts relativeOutdir = "".

End EmitterSpecification.

(** The file names the emitter builds an annotation for: the truthy
    engine file names of the targeted platforms, then the schema. *)
Definition annotatedFiles
    (getClientEngineType : NFT.Env -> option JSValue -> NFT.ClientEngineType)
    (getNodeAPIName : NFT.Platform -> NFT.NodeAPIKind -> string)
    (env : NFT.Env) (opts : NFT.TSClientOptions) : list string :=
  if NFT.dataProxy opts then []
  else match NFT.platforms opts with
       | None => []
       | Some platforms0 =>
           (flat_map
              (fun platform =>
                 match NFT.getQueryEngineFilename getNodeAPIName
                         (getClientEngineType env (NFT.generator opts)) platform with
                 | Some f => if JS.truthy f then [f] else []
                 | None => []
                 end)
              (targetedPlatforms env platforms0)
            ++ ["schema.prisma"])%list
       end.

(** *** Sample inputs *)

Definition sample_engine (t : NFT.ClientEngineType)
  : NFT.Env -> option JSValue -> NFT.ClientEngineType := fun _ _ => t.

(** A stand-in with the shape of the library file names. *)
Definition sample_getNodeAPIName (platform : NFT.Platform) (kind : NFT.NodeAPIKind) : string :=
  match kind with
  | NFT.fs => "libquery_engine-" ++ platform ++ ".so.node"
  | NFT.url => "libquery_engine.so.node"
  end.

Definition sample_opts (esm : bool) (platforms : list NFT.Platform) : NFT.TSClientOptions :=
  NFT.mkTSClientOptions false (Some platforms) esm None.

Definition netlify_env : NFT.Env := {[ "NETLIFY" := "true" ]}.

Definition sample_outdir : string := "node_modules/.prisma/client".

(** *** The stages of a run *)

(** What the fixtures' subprocesses report when they are run one after
    the other from the history [hist]: the results, in order, and the
    history that ensues. *)
Fixpoint jobOutcomes (h : E2E.Host) (dockerVolumeArgs : string) (names : list string)
    (hist : list (E2E.Cmd * Z)) : list E2E.JobResult * list (E2E.Cmd * Z) :=
  match names with
  | [] => ([], hist)
  | n :: rest =>
      let code := E2E.exit_status h hist (E2E.DockerRun dockerVolumeArgs n) in
      let '(results, hist') :=
        jobOutcomes h dockerVolumeArgs rest ((E2E.DockerRun dockerVolumeArgs n, code) :: hist) in
      (E2E.mkJobResult code n :: results, hist')
  end.

(** The run up to the fixture-execution stage. *)
Definition reachFixtures (h : E2E.Host) (args : E2E.Args) : E2E.M (list string * string) :=
  E2E.cleanUp h args;;
  E2E.prepareManifests h;;
  E2E.packTarballs h args;;
  E2E.discoverTests h args.

(** The run up to the [try] block. *)
Definition reachPacking (h : E2E.Host) (args : E2E.Args) : E2E.M unit :=
  E2E.cleanUp h args;;
  E2E.prepareManifests h.

(** The fixtures named in the [docker run] commands of a history, oldest
    first. *)
Definition fixturesRun (hist : list (E2E.Cmd * Z)) : list string :=
  flat_map (fun entry => match entry.1 with
                         | E2E.DockerRun _ n => [n]
                         | _ => []
                         end) (rev hist).

(** *** The outcome of the manifest rewrite *)


(** What the rewrite makes of the entry of [key]. *)
Definition rewrittenEntry (key : string) (entry : option JSValue) : option JSValue :=
  if JS.startsWith key "@prisma/"
  then match entry with
       | Some _ => Some (JStr (E2E.tarballPath key))
       | None => None
       end
  else entry.


(** The entries of a [dependencies] object after the inner loop has
    visited [keys]. *)
Definition rewriteEntries (keys : list string) (deps : gmap string JSValue)
  : gmap string JSValue :=
  fold_left (fun m key => if JS.startsWith key "@prisma/"
                          then <[key := JStr (E2E.tarballPath key)]> m else m) keys deps.

(** *** The manifests and the saved copy *)




(** *** Sample hosts *)

Definition sample_manifest (pkg : string) : JSValue :=
  JObj {[ "name" := JStr pkg;
          "dependencies" := JObj {[ "@prisma/debug" := JStr "workspace:*";
                                    "kleur" := JStr "4.1.5" ]} ]}.

(** Stand-ins for [path.dirname] and [path.relative('..', _)] on the
    paths the glob returns. *)
Definition sample_dirname (p : string) : string :=
  JS.join "/" (removelast (path.segments p)).

Definition sample_relative (from to : string) : string := JS.replace to "../" "".

Definition sample_host (status : list (E2E.Cmd * Z) -> E2E.Cmd -> Z) : E2E.Host :=
  E2E.mkHost "/repo" ["client"; "cli"]
    (fun folder => Some (sample_manifest folder))
    ["../accelerate/_steps.ts"; "../extensions/_steps.ts"; "../driver-adapters/_steps.ts"]
    "/repo/packages/client/tests/e2e/_utils"
    sample_dirname sample_relative (JS.join "/")
    status "/root/.pnpm-store"
    "/repo/packages/client" ["/repo/packages/client"; "/repo/packages/cli"]
    (fun _ _ _ fs => fs).

Definition sample_world : E2E.World :=
  E2E.mkWorld
    {[ "/repo/packages/client/package.json" := sample_manifest "@prisma/client";
       "/repo/packages/cli/package.json" := sample_manifest "prisma" ]}
    [] [].

Definition all_succeed : list (E2E.Cmd * Z) -> E2E.Cmd -> Z := fun _ _ => 0%Z.

Definition build_fails : list (E2E.Cmd * Z) -> E2E.Cmd -> Z :=
  fun _ c => match c with E2E.PnpmBuild => 1%Z | _ => 0%Z end.

Definition extensions_fails : list (E2E.Cmd * Z) -> E2E.Cmd -> Z :=
  fun _ c => match c with
             | E2E.DockerRun _ n => if String.eqb n "extensions" then 2%Z else 0%Z
             | _ => 0%Z
             end.

Definition sample_args (positional : list string) : E2E.Args :=
  E2E.mkArgs None None None None None positional.

(** The sample worlds at the stages of a run. *)
Definition sample_world_before_pack : E2E.World :=
  Eval vm_compute in
    (reachPacking (sample_host build_fails) (E2E.withDefaults (sample_args [])) sample_world).2.

Definition sample_reached (status : list (E2E.Cmd * Z) -> E2E.Cmd -> Z)
    (positional : list string) : E2E.Result (list string * string) * E2E.World :=
  reachFixtures (sample_host status) (E2E.withDefaults (sample_args positional)) sample_world.

Definition tests_of (r : E2E.Result (list string * string)) : list string * string :=
  match r with E2E.Ok tests => tests | _ => ([], "") end.

Definition sample_tests_all : list string * string :=
  Eval vm_compute in tests_of (sample_reached all_succeed []).1.

Definition sample_world_all_succeed : E2E.World :=
  Eval vm_compute in (sample_reached all_succeed []).2.

Definition sample_world_extensions_fails : E2E.World :=
  Eval vm_compute in (sample_reached extensions_fails []).2.

Definition sample_tests_filtered : list string * string :=
  Eval vm_compute in tests_of (sample_reached all_succeed ["ext"; "adapters"]).1.

Definition sample_world_filtered : E2E.World :=
  Eval vm_compute in (sample_reached all_succeed ["ext"; "adapters"]).2.


(* ===================================================================== *)
(** ** The module helpers of the placeholder module ([default-index.js]) *)
(* ===================================================================== *)

Module ModuleHelpers.

Section Helpers.

(** The state of the program at the time a property is read (the
    module's variables, the objects they hold), and the values a read
    yields. *)
Variable Scope : Type.
Variable Value : Type.
Variable vtrue : Value.

(** An own property of an object: what reading it yields (a data
    property yields its value, an accessor the result of its getter) and
    its attributes. *)
Record Property : Type := mkProperty {
  read : Scope -> Value;
  enumerable : bool;
  configurable : bool;
}.

(** The property [__copyProps] defines on [to] for an own property [p]
    of [from]: [{ get: () => from[key], enumerable: desc.enumerable }],
    not configurable as [Object.defineProperty] has it by default. *)
Definition forwarded (p : Property) : Property :=
  mkProperty (read p) (enumerable p) false.

(** One turn of the loop of [__copyProps]. *)
Definition copyProp (except : option string) (to : gmap string Property)
    (entry : string * Property) : gmap string Property :=
  match to !! entry.1 with
  | Some _ => to                                   (* __hasOwnProp.call(to, key) *)
  | None =>
      if bool_decide (except = Some entry.1) then to  (* key === except *)
      else <[entry.1 := forwarded entry.2]> to
  end.

(** [__copyProps(to, from, except)]; [from] is [None] when it is neither
    an object nor a function.  The own property names of [from] are
    visited in the order of [map_to_list], which plays no role. *)
Definition __copyProps (to : gmap string Property) (from : option (gmap string Property))
    (except : option string) : gmap string Property :=
  match from with
  | None => to
  | Some props => fold_left (copyProp except) (map_to_list props) to
  end.

(** [__toCommonJS(mod)]:
    [__copyProps(__defProp({}, "__esModule", { value: true }), mod)]. *)
Definition __toCommonJS (exported : gmap string Property) : gmap string Property :=
  __copyProps {[ "__esModule" := mkProperty (fun _ => vtrue) false false ]} (Some exported) None.

End Helpers.

End ModuleHelpers.


(** *** What a stage runs and how it fails *)

(** Every command [m] runs satisfies [P]. *)
Definition runs_only {A : Type} (P : E2E.Cmd -> Prop) (m : E2E.M A) : Prop :=
  forall w r w', m w = (r, w') ->
    exists added, E2E.history w' = (added ++ E2E.history w)%list /\
                  Forall (fun entry : E2E.Cmd * Z => P entry.1) added.

(** [m] never calls [process.exit], and when it throws, what it throws is
    the failure of the command it ran last, a command satisfying [P]. *)
Definition fails_at {A : Type} (P : E2E.Cmd -> Prop) (m : E2E.M A) : Prop :=
  forall w r w', m w = (r, w') ->
    match r with
    | E2E.Ok _ => True
    | E2E.Throw e =>
        exists c code older,
          e = E2E.ProcessFailed c code /\ code <> 0%Z /\
          E2E.history w' = (c, code) :: older /\ P c
    | E2E.Exit _ => False
    end.

(** The commands of the clean-up stage. *)
Definition docker_command (c : E2E.Cmd) : Prop :=
  c = E2E.DockerVersion \/ c = E2E.ComposeDown \/ c = E2E.ComposeUpClean \/
  c = E2E.ComposeUpPreClean.

(** *** More sample hosts *)

(** A host whose loader yields, for the second package folder, an object
    without [dependencies]. *)
Definition sample_host_broken : E2E.Host :=
  E2E.mkHost "/repo" ["client"; "cli"]
    (fun folder => if String.eqb folder "/repo/packages/cli"
                   then Some (JObj {[ "name" := JStr "prisma" ]})
                   else Some (sample_manifest folder))
    ["../accelerate/_steps.ts"]
    "/repo/packages/client/tests/e2e/_utils"
    sample_dirname sample_relative (JS.join "/")
    all_succeed "/root/.pnpm-store"
    "/repo/packages/client" ["/repo/packages/client"; "/repo/packages/cli"]
    (fun _ _ _ fs => fs).

Definition restore_fails : list (E2E.Cmd * Z) -> E2E.Cmd -> Z :=
  fun _ c => match c with E2E.RestoreManifests => 1%Z | _ => 0%Z end.

Definition compose_fails : list (E2E.Cmd * Z) -> E2E.Cmd -> Z :=
  fun _ c => match c with E2E.ComposeDown => 125%Z | _ => 0%Z end.

Definition sample_world_cleaned : E2E.World :=
  Eval vm_compute in
    (E2E.cleanUp sample_host_broken (E2E.withDefaults (sample_args [])) sample_world).2.

Definition sample_world_half_rewritten : E2E.World :=
  Eval vm_compute in (E2E.prepareManifests sample_host_broken sample_world_cleaned).2.

Definition sample_world_restore_fails_before_pack : E2E.World :=
  Eval vm_compute in
    (reachPacking (sample_host restore_fails) (E2E.withDefaults (sample_args [])) sample_world).2.

Definition sample_world_restore_fails_built : E2E.World :=
  Eval vm_compute in
    (E2E.buildAndPack (sample_host restore_fails) (E2E.withDefaults (sample_args []))
       sample_world_restore_fails_before_pack).2.

Definition sample_world_compose_fails : E2E.World :=
  Eval vm_compute in
    (E2E.cleanUp (sample_host compose_fails) (E2E.withDefaults (sample_args [])) sample_world).2.


Definition sample_tests_none : list string * string :=
  Eval vm_compute in tests_of (sample_reached all_succeed ["no-such-fixture"]).1.

Definition sample_world_none : E2E.World :=
  Eval vm_compute in (sample_reached all_succeed ["no-such-fixture"]).2.

Definition sample_results : list E2E.JobResult :=
  [E2E.mkJobResult 0 "accelerate"; E2E.mkJobResult 2 "extensions"].

(** The exports of a module with a variable holding a number: a live
    binding and an export named like the marker. *)
Definition sample_exports : gmap string (ModuleHelpers.Property nat string) :=
  {[ "PrismaClient" := ModuleHelpers.mkProperty nat string
                         (fun counter => E2E.nat_to_string counter) true false;
     "__esModule" := ModuleHelpers.mkProperty nat string (fun _ => "no") true false ]}.

(* ===================================================================== *)
(** * Properties *)
(* ===================================================================== *)

(** ** Strings *)

Section StringFacts.

Lemma sapp_nil_r (s : string) : s ++ "" = s.
Proof. induction s as [|c s IH]; simpl; [reflexivity | now rewrite IH]. Qed.

Lemma sapp_assoc (a b c : string) : (a ++ b) ++ c = a ++ (b ++ c).
Proof. induction a as [|x a IH]; simpl; [reflexivity | now rewrite IH]. Qed.

Lemma sapp_length (a b : string) :
  String.length (a ++ b) = (String.length a + String.length b)%nat.
Proof. induction a as [|x a IH]; simpl; [reflexivity | now rewrite IH]. Qed.

Lemma startsWith_app (p suf : string) : JS.startsWith (p ++ suf) p = true.
Proof.
  induction p as [|c p IH]; simpl; [reflexivity|].
  now rewrite Ascii.eqb_refl.
Qed.

Lemma startsWith_spec (s p : string) :
  JS.startsWith s p = true <-> exists suf, s = p ++ suf.
Proof.
  split.
  - revert s; induction p as [|c p IH]; intros s H.
    + now exists s.
    + destruct s as [|d s]; simpl in H; [discriminate|].
      destruct (Ascii.eqb_spec c d) as [->|]; [|discriminate].
      destruct (IH _ H) as [suf ->]. now exists suf.
  - intros [suf ->]. apply startsWith_app.
Qed.

Lemma substring_refl (s : string) : JS.Substring s s.
Proof. exists "", "". simpl. now rewrite sapp_nil_r. Qed.

Lemma substring_app_r (a s t : string) : JS.Substring a s -> JS.Substring a (s ++ t).
Proof.
  intros (pre & suf & ->). exists pre, (suf ++ t).
  now rewrite !sapp_assoc.
Qed.

Lemma substring_app_l (a s t : string) : JS.Substring a s -> JS.Substring a (t ++ s).
Proof.
  intros (pre & suf & ->). exists (t ++ pre), suf.
  now rewrite !sapp_assoc.
Qed.

Lemma substring_trans (a b c : string) :
  JS.Substring a b -> JS.Substring b c -> JS.Substring a c.
Proof.
  intros (p1 & s1 & ->) (p2 & s2 & ->).
  exists (p2 ++ p1), (s1 ++ s2). now rewrite !sapp_assoc.
Qed.

Lemma includes_startsWith (s a : string) :
  JS.startsWith s a = true -> JS.includes s a = true.
Proof. intros H. destruct s; simpl; now rewrite H. Qed.

Lemma includes_spec (s a : string) :
  JS.includes s a = true <-> JS.Substring a s.
Proof.
  split.
  - induction s as [|c s IH]; simpl; intros H.
    + apply orb_true_iff in H as [H|H]; [|discriminate].
      apply startsWith_spec in H as [suf ->]. exists "", suf. reflexivity.
    + apply orb_true_iff in H as [H|H].
      * apply startsWith_spec in H as [suf ->]. exists "", suf. reflexivity.
      * destruct (IH H) as (pre & suf & ->). exists (String c pre), suf. reflexivity.
  - intros (pre & suf & ->). induction pre as [|c pre IH]; simpl.
    + apply includes_startsWith, startsWith_app.
    + rewrite IH. apply orb_true_r.
Qed.

Lemma includes_false (s a : string) :
  JS.includes s a = false <-> ~ JS.Substring a s.
Proof.
  rewrite <- includes_spec. destruct (JS.includes s a); split; intros; congruence.
Qed.

End StringFacts.

(** ** The model of [path.join] and [JSON.stringify] on known values *)

Example join_dot_schema : path.join ["."; "schema.prisma"] = "schema.prisma".
Proof. reflexivity. Qed.

Example join_normalizes : path.join ["../../a//b/"; "./c/../d"] = "../../a/b/d".
Proof. reflexivity. Qed.

Example join_above_root : path.join ["/a/../.."; ""] = "/".
Proof. reflexivity. Qed.

Example join_nothing : path.join [""; ""] = ".".
Proof. reflexivity. Qed.

Example join_back_to_start : path.join ["a/"; "../"] = "./".
Proof. reflexivity. Qed.

Example stringify_escapes :
  JSON.stringify (String JS.dquote_char (String JS.newline_char (String "001" "a"))) =
  JS.dquote ++ String JS.backslash_char JS.dquote ++ String JS.backslash_char "n"
    ++ String JS.backslash_char "u0001" ++ "a" ++ JS.dquote.
Proof. reflexivity. Qed.

Example replace_first_only : JS.replace "a/b/c" "/" "-" = "a-b/c".
Proof. reflexivity. Qed.

Example tarball_of_client : E2E.tarballPath "@prisma/client" = "/tmp/prisma-client-0.0.0.tgz".
Proof. reflexivity. Qed.


(** ** Quoting and joining plain file names *)

Section PlainNames.

Lemma all_chars_app (P : ascii -> bool) (a b : string) :
  all_chars P (a ++ b) = all_chars P a && all_chars P b.
Proof.
  induction a as [|c a IH]; simpl; [reflexivity|].
  now rewrite IH, andb_assoc.
Qed.

Lemma all_chars_weaken (P Q : ascii -> bool) (s : string) :
  (forall c, P c = true -> Q c = true) ->
  all_chars P s = true -> all_chars Q s = true.
Proof.
  intros HPQ. induction s as [|c s IH]; simpl; [reflexivity|].
  intros [Hc Hs]%andb_true_iff. rewrite (HPQ _ Hc). now apply IH.
Qed.

Lemma escape_char_plain (c : ascii) :
  json_plain_char c = true -> JSON.escape_char c = String c "".
Proof.
  unfold json_plain_char, JSON.escape_char. cbv zeta.
  intros [[H32 H34]%andb_true_iff H92]%andb_true_iff.
  apply negb_true_iff in H34, H92. rewrite H34, H92.
  apply N.leb_le in H32.
  repeat match goal with
         | |- context [(?n =? ?k)%N] =>
             destruct (N.eqb_spec n k) as [E|_]; [rewrite E in H32; lia|]
         end.
  destruct (N.ltb_spec (N_of_ascii c) 32); [lia | reflexivity].
Qed.

Lemma escape_plain (s : string) :
  all_chars json_plain_char s = true -> JSON.escape s = s.
Proof.
  induction s as [|c s IH]; simpl; [reflexivity|].
  intros [Hc Hs]%andb_true_iff.
  rewrite (escape_char_plain _ Hc), (IH Hs). reflexivity.
Qed.

Lemma stringify_plain (s : string) :
  all_chars json_plain_char s = true ->
  JSON.stringify s = JS.dquote ++ s ++ JS.dquote.
Proof. intros H. unfold JSON.stringify. now rewrite escape_plain. Qed.

Lemma segments_no_slash (s : string) :
  all_chars not_slash s = true -> path.segments s = [s].
Proof.
  induction s as [|c s IH]; simpl; [reflexivity|].
  intros [Hc Hs]%andb_true_iff. unfold not_slash in Hc.
  apply negb_true_iff in Hc. rewrite Hc, (IH Hs). reflexivity.
Qed.

Lemma last_char_no_slash (s : string) :
  all_chars not_slash s = true -> path.is_slash (path.last_char s) = false.
Proof.
  induction s as [|c s IH]; [reflexivity|].
  simpl. intros [Hc Hs]%andb_true_iff.
  destruct s as [|d s]; [|exact (IH Hs)].
  simpl. unfold not_slash in Hc. now apply negb_true_iff in Hc.
Qed.

Lemma last_char_cons (c : ascii) (s : string) :
  JS.truthy s = true -> path.last_char (String c s) = path.last_char s.
Proof. destruct s; [discriminate | reflexivity]. Qed.

Lemma plain_filename_parts (f : string) :
  plain_filename f = true ->
  JS.truthy f = true /\ all_chars json_plain_char f = true /\ all_chars not_slash f = true.
Proof.
  unfold plain_filename. intros [Ht Ha]%andb_true_iff. repeat split; [exact Ht| |].
  - eapply all_chars_weaken; [|exact Ha]. now intros c [? ?]%andb_true_iff.
  - eapply all_chars_weaken; [|exact Ha]. now intros c [? ?]%andb_true_iff.
Qed.

(** [path.join('.', f)] is [f] itself when [f] is a single segment. *)
Lemma join_dot_segment (f : string) :
  JS.truthy f = true -> all_chars not_slash f = true ->
  path.join ["."; f] = f.
Proof.
  intros Ht Hs. unfold path.join.
  assert (Hfilter : filter (fun a => JS.truthy a = true) ["."; f] = ["."; f]).
  { rewrite filter_cons_True by reflexivity.
    rewrite filter_cons_True by exact Ht. reflexivity. }
  rewrite Hfilter.
  change (JS.join "/" ["."; f]) with ("." ++ "/" ++ f)%string.
  change ("." ++ "/" ++ f)%string with (String "." (String "/" f)).
  unfold path.normalize.
  cbv beta iota zeta.
  change (path.is_slash (path.first_char (String "." (String "/" f)))) with false.
  rewrite (last_char_cons "." (String "/" f)) by reflexivity.
  rewrite (last_char_cons "/" f) by exact Ht.
  rewrite (last_char_no_slash _ Hs).
  unfold path.normalizeString.
  assert (Hseg : path.segments (String "." (String "/" f)) = ["."; f]).
  { simpl path.segments. rewrite (segments_no_slash _ Hs). reflexivity. }
  rewrite Hseg. cbn [fold_left].
  change (path.normalize_step true [] ".") with (@nil string).
  unfold path.normalize_step.
  destruct (String.eqb_spec f "") as [->|Hne]; [discriminate|].
  destruct (String.eqb_spec f ".") as [->|Hnd]; [reflexivity|].
  destruct (String.eqb_spec f "..") as [->|Hndd]; [reflexivity|].
  cbn. destruct f; [discriminate | reflexivity].
Qed.

End PlainNames.

(** ** The annotation emitter *)

Section Emitter.

Import NFT.

Variable getClientEngineType : Env -> option JSValue -> ClientEngineType.
Variable getNodeAPIName : Platform -> NodeAPIKind -> string.

Let emit := buildNFTAnnotations getClientEngineType getNodeAPIName.
Let filenameOf := getQueryEngineFilename getNodeAPIName.

(** The annotation of one file, as the callback of [map] builds it. *)
Let annotate (engineType : ClientEngineType) (esm : bool) (relativeOutdir : string)
    (platform : Platform) : string :=
  if JS.truthy_opt (filenameOf engineType platform)
  then buildNFTAnnotation esm (default "" (filenameOf engineType platform)) relativeOutdir
  else "".

Lemma annotation_truthy (esm : bool) (f relativeOutdir : string) :
  JS.truthy (buildNFTAnnotation esm f relativeOutdir) = true.
Proof. unfold buildNFTAnnotation. now destruct esm. Qed.

Lemma truthy_nonempty (s : string) : JS.truthy s = true -> s <> "".
Proof. now destruct s. Qed.

Lemma truthy_app_r (a b : string) : JS.truthy b = true -> JS.truthy (a ++ b) = true.
Proof. destruct a; simpl; [tauto | reflexivity]. Qed.

(** An annotation quotes the file name it is built for. *)
Lemma annotation_mentions (esm : bool) (f relativeOutdir : string) :
  plain_filename f = true ->
  JS.Substring f (buildNFTAnnotation esm f relativeOutdir).
Proof.
  intros (Ht & Hj & Hs)%plain_filename_parts.
  unfold buildNFTAnnotation. destruct esm.
  - rewrite (join_dot_segment _ Ht Hs), (stringify_plain _ Hj).
    apply substring_app_l, substring_app_l, substring_app_r, substring_app_l,
      substring_app_r, substring_refl.
  - rewrite (stringify_plain _ Hj).
    apply substring_app_l, substring_app_l, substring_app_r, substring_app_l,
      substring_app_r, substring_refl.
Qed.

Lemma join_mentions (sep x : string) (l : list string) :
  In x l -> JS.Substring x (JS.join sep l).
Proof.
  induction l as [|y l IH]; [intros []|].
  intros [->|Hin].
  - destruct l; simpl; [apply substring_refl | apply substring_app_r, substring_refl].
  - destruct l as [|z l]; [destruct Hin|].
    change (JS.join sep (y :: z :: l)) with (y ++ sep ++ JS.join sep (z :: l)).
    apply substring_app_l, substring_app_l, IH, Hin.
Qed.

(** The shape of the result once both early returns are passed. *)
Lemma emit_unfold (env : Env) (opts : TSClientOptions) (relativeOutdir : string)
    (platforms0 : list Platform) :
  dataProxy opts = false -> platforms opts = Some platforms0 ->
  emit env opts relativeOutdir =
    JS.join JS.nl
      (List.map (annotate (getClientEngineType env (generator opts)) (esm opts) relativeOutdir)
                (targetedPlatforms env platforms0))
    ++ buildNFTAnnotation (esm opts) "schema.prisma" relativeOutdir.
Proof.
  intros Hd Hp. unfold emit, buildNFTAnnotations. rewrite Hd, Hp. reflexivity.
Qed.

Lemma emit_dataProxy (env : Env) (opts : TSClientOptions) (relativeOutdir : string) :
  dataProxy opts = true -> emit env opts relativeOutdir = "".
Proof. intros H. unfold emit, buildNFTAnnotations. now rewrite H. Qed.

Lemma emit_no_platforms (env : Env) (opts : TSClientOptions) (relativeOutdir : string) :
  platforms opts = None -> emit env opts relativeOutdir = "".
Proof.
  intros H. unfold emit, buildNFTAnnotations. rewrite H. now destruct (dataProxy opts).
Qed.

Lemma emit_nonempty (env : Env) (opts : TSClientOptions) (relativeOutdir : string)
    (platforms0 : list Platform) :
  dataProxy opts = false -> platforms opts = Some platforms0 ->
  emit env opts relativeOutdir <> "".
Proof.
  intros Hd Hp. rewrite (emit_unfold _ _ _ _ Hd Hp).
  apply truthy_nonempty, truthy_app_r, annotation_truthy.
Qed.

Lemma emit_mentions (env : Env) (opts : TSClientOptions) (relativeOutdir : string)
    (platforms0 : list Platform) (platform : Platform) (f : string) :
  dataProxy opts = false -> platforms opts = Some platforms0 ->
  In platform (targetedPlatforms env platforms0) ->
  filenameOf (getClientEngineType env (generator opts)) platform = Some f ->
  plain_filename f = true ->
  JS.Substring f (emit env opts relativeOutdir).
Proof.
  intros Hd Hp Hin Hf Hplain. rewrite (emit_unfold _ _ _ _ Hd Hp).
  apply substring_app_r.
  eapply substring_trans; [|apply join_mentions, in_map, Hin].
  unfold annotate. rewrite Hf. simpl.
  destruct (plain_filename_parts _ Hplain) as (Ht & _). rewrite Ht.
  now apply annotation_mentions.
Qed.

(** C1 (as amended): the result is the empty string when [dataProxy] is
    true or [platforms] is undefined.  Otherwise it is not empty, and for
    the Binary and Library engines it contains the asset file name of
    every targeted platform ([query-engine-<platform>], respectively
    [getNodeAPIName(platform, 'fs')]) whenever that name is a plain path
    segment; the targeted platforms are those of the configuration unless
    the NETLIFY environment variable is set to a non-empty value, in
    which case they are ['rhel-openssl-1.0.x']. *)
Theorem C1_emitter_mentions_targeted_assets
    (env : Env) (opts : TSClientOptions) (relativeOutdir : string) :
  (dataProxy opts = true \/ platforms opts = None -> emit env opts relativeOutdir = "") /\
  (forall platforms0,
      dataProxy opts = false -> platforms opts = Some platforms0 ->
      emit env opts relativeOutdir <> "" /\
      forall platform, In platform (targetedPlatforms env platforms0) ->
        (getClientEngineType env (generator opts) = Binary ->
         plain_filename ("query-engine-" ++ platform) = true ->
         JS.Substring ("query-engine-" ++ platform) (emit env opts relativeOutdir)) /\
        (getClientEngineType env (generator opts) = Library ->
         plain_filename (getNodeAPIName platform fs) = true ->
         JS.Substring (getNodeAPIName platform fs) (emit env opts relativeOutdir))).
Proof.
  split.
  - intros [H|H]; [now apply emit_dataProxy | now apply emit_no_platforms].
  - intros platforms0 Hd Hp. split; [now apply (emit_nonempty _ _ _ platforms0)|].
    intros platform Hin. split; intros E Hplain.
    + apply (emit_mentions _ _ _ platforms0 platform); auto.
      unfold filenameOf, getQueryEngineFilename. now rewrite E.
    + apply (emit_mentions _ _ _ platforms0 platform); auto.
      unfold filenameOf, getQueryEngineFilename. now rewrite E.
Qed.

End Emitter.

Lemma C1_emitter_mentions_targeted_assets_witness :
  let out := NFT.buildNFTAnnotations (sample_engine NFT.Binary) sample_getNodeAPIName
               ∅ (sample_opts false ["darwin"; "windows"]) sample_outdir in
  out <> "" /\ JS.Substring "query-engine-windows" out.
Proof.
  intros out.
  destruct (C1_emitter_mentions_targeted_assets (sample_engine NFT.Binary)
              sample_getNodeAPIName ∅ (sample_opts false ["darwin"; "windows"])
              sample_outdir) as [_ H].
  destruct (H _ eq_refl eq_refl) as (Hne & Hall).
  split; [exact Hne|].
  destruct (Hall "windows") as [Hbinary _].
  - right. left. reflexivity.
  - apply Hbinary; reflexivity.
Defined.

(** C1 as worded fails on Netlify: with NETLIFY set, the Binary engine
    and platforms ['darwin'], the result does not mention
    [query-engine-darwin]. *)
Lemma C1_counterexample_netlify :
  ~ contains_every_platform_asset (sample_engine NFT.Binary) sample_getNodeAPIName
      netlify_env (sample_opts false ["darwin"]) sample_outdir.
Proof.
  intros [_ H].
  destruct (H ["darwin"] eq_refl eq_refl (or_intror eq_refl)) as [_ Hall].
  destruct (Hall "darwin" (or_introl eq_refl)) as (f & Hf & Hsub).
  injection Hf as <-.
  apply includes_spec in Hsub. vm_compute in Hsub. discriminate.
Qed.

Section EmitterEnvironment.

Import NFT.

Variable getClientEngineType : Env -> option JSValue -> ClientEngineType.
Variable getNodeAPIName : Platform -> NodeAPIKind -> string.

Let emit := buildNFTAnnotations getClientEngineType getNodeAPIName.

(** C2 (as amended): the result is a function of the configuration, of
    the engine type that [getClientEngineType] resolves and of whether the
    NETLIFY environment variable is set to a non-empty value.  Two
    invocations with equal configuration in environments that agree on
    these two points return the same text; and once NETLIFY is set, the
    contents of a defined platform list no longer matter. *)
Theorem C2_emitter_depends_on_netlify_only
    (env1 env2 : Env) (opts : TSClientOptions) (relativeOutdir : string) :
  JS.truthy_opt (env1 !! "NETLIFY") = JS.truthy_opt (env2 !! "NETLIFY") ->
  getClientEngineType env1 (generator opts) = getClientEngineType env2 (generator opts) ->
  emit env1 opts relativeOutdir = emit env2 opts relativeOutdir /\
  (JS.truthy_opt (env1 !! "NETLIFY") = true ->
   forall platforms1 platforms2,
     emit env1 (mkTSClientOptions (dataProxy opts) (Some platforms1) (esm opts) (generator opts))
          relativeOutdir =
     emit env1 (mkTSClientOptions (dataProxy opts) (Some platforms2) (esm opts) (generator opts))
          relativeOutdir).
Proof.
  intros Hnetlify Hengine. split.
  - unfold emit, buildNFTAnnotations. now rewrite Hnetlify, Hengine.
  - intros Hset platforms1 platforms2.
    unfold emit, buildNFTAnnotations. simpl. now rewrite Hset.
Qed.

End EmitterEnvironment.

Lemma C2_emitter_depends_on_netlify_only_witness :
  NFT.buildNFTAnnotations (sample_engine NFT.Library) sample_getNodeAPIName
    {[ "HOME" := "/root" ]} (sample_opts true ["darwin"]) sample_outdir =
  NFT.buildNFTAnnotations (sample_engine NFT.Library) sample_getNodeAPIName
    {[ "NETLIFY" := "" ]} (sample_opts true ["darwin"]) sample_outdir.
Proof.
  apply (C2_emitter_depends_on_netlify_only (sample_engine NFT.Library) sample_getNodeAPIName
           {[ "HOME" := "/root" ]} {[ "NETLIFY" := "" ]} (sample_opts true ["darwin"])
           sample_outdir); vm_compute; reflexivity.
Defined.

(** C2 as worded fails: the same configuration gives two different texts
    in an empty environment and in one where NETLIFY is set. *)
Lemma C2_counterexample_netlify :
  ~ environment_independent (sample_engine NFT.Binary) sample_getNodeAPIName
      ∅ netlify_env (sample_opts false ["darwin"]) sample_outdir.
Proof. unfold environment_independent. vm_compute. discriminate. Qed.

Section EmitterDegradation.

Import NFT.

Variable getClientEngineType : Env -> option JSValue -> ClientEngineType.
Variable getNodeAPIName : Platform -> NodeAPIKind -> string.

Let emit := buildNFTAnnotations getClientEngineType getNodeAPIName.

Lemma join_of_empties (sep : string) (l : list Platform) :
  JS.join sep (List.map (fun _ => "") l) =
  JS.join "" (List.repeat sep (List.length l - 1)).
Proof.
  induction l as [|x l IH]; [reflexivity|].
  destruct l as [|y l]; [reflexivity|].
  change (JS.join sep (List.map (fun _ => "") (x :: y :: l)))
    with ("" ++ sep ++ JS.join sep (List.map (fun _ : Platform => "") (y :: l))).
  rewrite IH. simpl List.length. simpl "-".
  rewrite Nat.sub_0_r. simpl List.repeat. simpl.
  destruct l; simpl; [now rewrite sapp_nil_r | reflexivity].
Qed.

(** C7 (as amended): the emitter is a total function to strings.  It
    returns the empty string when [dataProxy] is true or [platforms] is
    undefined.  For an engine type that needs no asset it emits no engine
    annotation but still the schema annotation: the result is the
    separators of the (empty) engine annotations followed by the
    annotation of [schema.prisma], and it is not empty. *)
Theorem C7_emitter_degradation
    (env : Env) (opts : TSClientOptions) (relativeOutdir : string) :
  (dataProxy opts = true \/ platforms opts = None -> emit env opts relativeOutdir = "") /\
  (forall platforms0,
      dataProxy opts = false -> platforms opts = Some platforms0 ->
      getClientEngineType env (generator opts) = OtherEngine ->
      emit env opts relativeOutdir =
        JS.join "" (List.repeat JS.nl (List.length (targetedPlatforms env platforms0) - 1))
        ++ buildNFTAnnotation (esm opts) "schema.prisma" relativeOutdir /\
      emit env opts relativeOutdir <> "").
Proof.
  split.
  - intros [H|H]; [now apply emit_dataProxy | now apply emit_no_platforms].
  - intros platforms0 Hd Hp He. split; [|now apply (emit_nonempty _ _ _ _ _ platforms0)].
    unfold emit. rewrite (emit_unfold _ _ _ _ _ platforms0 Hd Hp), He.
    f_equal. apply join_of_empties.
Qed.

End EmitterDegradation.

Lemma C7_emitter_degradation_witness :
  NFT.buildNFTAnnotations (sample_engine NFT.OtherEngine) sample_getNodeAPIName
    ∅ (sample_opts true ["darwin"; "windows"]) sample_outdir =
  JS.nl ++ NFT.buildNFTAnnotation true "schema.prisma" sample_outdir.
Proof.
  destruct (C7_emitter_degradation (sample_engine NFT.OtherEngine) sample_getNodeAPIName
              ∅ (sample_opts true ["darwin"; "windows"]) sample_outdir) as [_ H].
  destruct (H _ eq_refl eq_refl eq_refl) as [Heq _].
  exact Heq.
Defined.

(** C7 as worded fails for an engine type without asset: the result
    still holds the schema annotation. *)
Lemma C7_counterexample_other_engine :
  ~ degrades_to_empty (sample_engine NFT.OtherEngine) sample_getNodeAPIName
      ∅ (sample_opts false ["darwin"]) sample_outdir.
Proof.
  intros H. specialize (H (or_intror (or_intror eq_refl))).
  vm_compute in H. discriminate.
Qed.

(** ** The placeholder module *)

(** C8: whatever the arguments, [new PrismaClient(...args)] throws, and
    always the same error, whose message tells to run [prisma generate]. *)
Theorem C8_PrismaClient_always_throws (args : list JSValue) :
  Placeholder.PrismaClient args =
    Placeholder.Thrown (Placeholder.Error Placeholder.not_initialized_message) /\
  (forall args' : list JSValue, Placeholder.PrismaClient args' = Placeholder.PrismaClient args) /\
  JS.includes Placeholder.not_initialized_message
    ("Please run " ++ JS.dquote ++ "prisma generate" ++ JS.dquote) = true.
Proof. repeat split. Qed.

(** ** Reading annotations back *)

Section Literals.

Lemma scan_outside_skip (pre t : string) :
  all_chars no_quote pre = true -> scan Outside (pre ++ t) = scan Outside t.
Proof.
  induction pre as [|c pre IH]; simpl; [reflexivity|].
  intros [Hc Hp]%andb_true_iff. unfold no_quote in Hc.
  apply negb_true_iff in Hc. rewrite Hc. now apply IH.
Qed.

(** Scanning an escaped character yields the character. *)
Lemma scan_escape_char (c : ascii) (acc t : string) :
  scan (Inside acc) (JSON.escape_char c ++ t) = scan (Inside (acc ++ String c "")) t.
Proof. destruct c as [[] [] [] [] [] [] [] []]; reflexivity. Qed.

Lemma scan_escape (x acc t : string) :
  scan (Inside acc) (JSON.escape x ++ JS.dquote ++ t) = (acc ++ x) :: scan Outside t.
Proof.
  revert acc. induction x as [|c x IH]; intros acc.
  - simpl. now rewrite sapp_nil_r.
  - simpl JSON.escape. rewrite sapp_assoc, scan_escape_char, IH.
    now rewrite sapp_assoc.
Qed.

(** A quoted string is read back as the string. *)
Lemma scan_stringify (x t : string) :
  scan Outside (JSON.stringify x ++ t) = x :: scan Outside t.
Proof.
  unfold JSON.stringify, JS.dquote. simpl.
  change (String JS.dquote_char "") with JS.dquote.
  now rewrite sapp_assoc, scan_escape.
Qed.

Lemma literals_annotation (esm : bool) (f relativeOutdir t : string) :
  scan Outside (NFT.buildNFTAnnotation esm f relativeOutdir ++ t) =
  (annotation_literals esm relativeOutdir f ++ scan Outside t)%list.
Proof.
  unfold NFT.buildNFTAnnotation, annotation_literals. destruct esm.
  - rewrite !sapp_assoc.
    rewrite (scan_outside_skip JS.nl) by reflexivity.
    rewrite (scan_outside_skip "new URL(") by reflexivity.
    rewrite scan_stringify.
    rewrite (scan_outside_skip ", import.meta.url)") by reflexivity.
    reflexivity.
  - rewrite !sapp_assoc.
    rewrite (scan_outside_skip JS.nl) by reflexivity.
    rewrite (scan_outside_skip "path.join(__dirname, ") by reflexivity.
    rewrite scan_stringify.
    rewrite (scan_outside_skip ");") by reflexivity.
    rewrite (scan_outside_skip JS.nl) by reflexivity.
    rewrite (scan_outside_skip "path.join(process.cwd(), ") by reflexivity.
    rewrite scan_stringify.
    rewrite (scan_outside_skip ")") by reflexivity.
    reflexivity.
Qed.

End Literals.

(** ** File names of joined paths *)

Section Basenames.

Lemma segments_nonempty (s : string) : path.segments s <> [].
Proof.
  induction s as [|c s IH]; simpl; [discriminate|].
  destruct (Ascii.eqb c JS.slash_char); [discriminate|].
  destruct (path.segments s); [contradiction | discriminate].
Qed.

Lemma segments_app_slash (a b : string) :
  path.segments (a ++ String JS.slash_char b) = (path.segments a ++ path.segments b)%list.
Proof.
  induction a as [|c a IH]; simpl.
  - reflexivity.
  - destruct (Ascii.eqb c JS.slash_char); rewrite IH; [reflexivity|].
    pose proof (segments_nonempty a) as Hne.
    destruct (path.segments a); [contradiction | reflexivity].
Qed.

Lemma basename_segment (f : string) :
  all_chars not_slash f = true -> path_basename f = f.
Proof. intros H. unfold path_basename. now rewrite segments_no_slash. Qed.

Lemma basename_after_slash (z f : string) :
  all_chars not_slash f = true -> path_basename (z ++ "/" ++ f) = f.
Proof.
  intros H. unfold path_basename.
  change (z ++ "/" ++ f) with (z ++ String JS.slash_char f).
  rewrite segments_app_slash, (segments_no_slash _ H).
  apply last_last.
Qed.

Lemma join_snoc (l : list string) (f : string) :
  l <> [] -> JS.join "/" (l ++ [f]) = JS.join "/" l ++ "/" ++ f.
Proof.
  induction l as [|x l IH]; [contradiction|]. intros _.
  destruct l as [|y l]; [reflexivity|].
  change (JS.join "/" ((x :: y :: l) ++ [f])) with (x ++ "/" ++ JS.join "/" ((y :: l) ++ [f])).
  rewrite IH by discriminate.
  change (JS.join "/" (x :: y :: l)) with (x ++ "/" ++ JS.join "/" (y :: l)).
  now rewrite !sapp_assoc.
Qed.

Lemma proper_filename_parts (f : string) :
  proper_filename f = true ->
  plain_filename f = true /\ JS.truthy f = true /\ all_chars not_slash f = true /\
  f <> "" /\ f <> "." /\ f <> "..".
Proof.
  unfold proper_filename. intros [[Hp Hd]%andb_true_iff Hdd]%andb_true_iff.
  destruct (plain_filename_parts _ Hp) as (Ht & _ & Hs).
  apply negb_true_iff, String.eqb_neq in Hd, Hdd.
  repeat split; auto. now destruct f.
Qed.

Lemma normalize_step_proper (allow : bool) (res : list string) (f : string) :
  f <> "" -> f <> "." -> f <> ".." -> path.normalize_step allow res f = f :: res.
Proof.
  intros H1 H2 H3. unfold path.normalize_step.
  apply String.eqb_neq in H1, H2, H3. now rewrite H1, H2, H3.
Qed.

Lemma last_char_app (a f : string) :
  JS.truthy f = true -> path.last_char (a ++ f) = path.last_char f.
Proof.
  intros Ht. induction a as [|c a IH]; [reflexivity|].
  simpl String.append. rewrite last_char_cons; [exact IH|].
  now apply truthy_app_r.
Qed.

(** Normalizing a path that ends in a proper file name keeps that name
    as the last segment. *)
Lemma normalize_keeps_filename (z f : string) :
  proper_filename f = true ->
  path_basename (path.normalize (z ++ String JS.slash_char f)) = f.
Proof.
  intros (_ & Ht & Hs & Hne & Hnd & Hndd)%proper_filename_parts.
  unfold path.normalize.
  destruct (z ++ String JS.slash_char f) eqn:Ez; [now destruct z|].
  rewrite <- Ez. clear Ez.
  cbv zeta.
  replace (path.is_slash (path.last_char (z ++ String JS.slash_char f))) with false.
  2:{ rewrite last_char_app by reflexivity. rewrite last_char_cons by exact Ht.
      symmetry. now apply last_char_no_slash. }
  unfold path.normalizeString.
  rewrite segments_app_slash, (segments_no_slash _ Hs), fold_left_app.
  cbn [fold_left]. rewrite normalize_step_proper by assumption.
  cbn [rev]. set (kept := rev _).
  assert (Hjoin : exists w, (w = "" \/ exists z', w = z' ++ "/") /\
                            JS.join "/" (kept ++ [f]) = w ++ f).
  { destruct kept as [|k kept'] eqn:Ek.
    - exists "". split; [now left | reflexivity].
    - exists (JS.join "/" (k :: kept') ++ "/"). split; [right; eauto|].
      rewrite join_snoc by discriminate. now rewrite sapp_assoc. }
  destruct Hjoin as (w & Hw & ->).
  assert (Hwf : JS.truthy (w ++ f) = true) by now apply truthy_app_r.
  destruct (w ++ f) eqn:Ewf; [discriminate|]. rewrite <- Ewf. clear Ewf Hwf.
  destruct (path.is_slash _).
  - destruct Hw as [->|[z' ->]].
    + apply (basename_after_slash "" f Hs).
    + rewrite sapp_assoc. rewrite <- sapp_assoc.
      apply (basename_after_slash ("/" ++ z') f Hs).
  - destruct Hw as [->|[z' ->]].
    + now apply basename_segment.
    + rewrite sapp_assoc. apply (basename_after_slash z' f Hs).
Qed.

Lemma match_truthy {A : Type} (s : string) (x y : A) :
  JS.truthy s = true -> match s with "" => x | String _ _ => y end = y.
Proof. now destruct s. Qed.

Lemma first_char_no_slash (f : string) :
  all_chars not_slash f = true -> path.is_slash (path.first_char f) = false.
Proof.
  destruct f as [|c f]; [reflexivity|]. simpl.
  intros [Hc _]%andb_true_iff. unfold not_slash in Hc. now apply negb_true_iff in Hc.
Qed.

Lemma normalize_proper (f : string) :
  proper_filename f = true -> path.normalize f = f.
Proof.
  intros (_ & Ht & Hs & Hne & Hnd & Hndd)%proper_filename_parts.
  unfold path.normalize. rewrite (match_truthy f) by exact Ht. cbv zeta.
  rewrite (last_char_no_slash _ Hs), (first_char_no_slash _ Hs).
  unfold path.normalizeString. rewrite (segments_no_slash _ Hs).
  cbn [fold_left]. rewrite normalize_step_proper by assumption.
  cbn [rev app JS.join negb].
  now rewrite (match_truthy f) by exact Ht.
Qed.

(** [path.join(dir, f)] names the file [f], whatever [dir] is. *)
Lemma basename_join (dir f : string) :
  proper_filename f = true -> path_basename (path.join [dir; f]) = f.
Proof.
  intros Hp. pose proof (proper_filename_parts _ Hp) as (_ & Ht & Hs & _).
  unfold path.join. destruct dir as [|c dir].
  - rewrite filter_cons_False by (simpl; discriminate).
    rewrite filter_cons_True by exact Ht.
    rewrite filter_nil. destruct f; [discriminate|].
    cbn [JS.join]. rewrite normalize_proper by exact Hp. now apply basename_segment.
  - rewrite filter_cons_True by reflexivity.
    rewrite filter_cons_True by exact Ht. rewrite filter_nil.
    change (JS.join "/" [String c dir; f]) with (String c dir ++ String JS.slash_char f).
    now apply normalize_keeps_filename.
Qed.

Lemma basename_join_dot (f : string) :
  proper_filename f = true -> path_basename (path.join ["."; f]) = f.
Proof. apply basename_join. Qed.

End Basenames.

(** ** The module-format flag *)

Section ModuleFormat.

Import NFT.

Variable getClientEngineType : Env -> option JSValue -> ClientEngineType.
Variable getNodeAPIName : Platform -> NodeAPIKind -> string.

Let emit := buildNFTAnnotations getClientEngineType getNodeAPIName.
Let filesOf := annotatedFiles getClientEngineType getNodeAPIName.

Lemma literals_engine_annotations
    (engineType : ClientEngineType) (b : bool) (relativeOutdir t : string)
    (targeted : list Platform) :
  scan Outside
    (JS.join JS.nl
       (List.map (fun platform =>
          if JS.truthy_opt (getQueryEngineFilename getNodeAPIName engineType platform)
          then buildNFTAnnotation b
                 (default "" (getQueryEngineFilename getNodeAPIName engineType platform))
                 relativeOutdir
          else "") targeted) ++ t) =
  (concat (List.map (annotation_literals b relativeOutdir)
     (flat_map (fun platform =>
                  match getQueryEngineFilename getNodeAPIName engineType platform with
                  | Some f => if JS.truthy f then [f] else []
                  | None => []
                  end) targeted))
   ++ scan Outside t)%list.
Proof.
  set (ann := fun platform : Platform => _).
  set (pick := fun platform : Platform => _).
  assert (Hone : forall platform u,
             scan Outside (ann platform ++ u) =
             (concat (List.map (annotation_literals b relativeOutdir) (pick platform))
              ++ scan Outside u)%list).
  { intros platform u. unfold ann, pick.
    destruct (getQueryEngineFilename getNodeAPIName engineType platform) as [f|];
      [|reflexivity].
    simpl JS.truthy_opt. destruct (JS.truthy f); [|reflexivity].
    simpl. rewrite literals_annotation. now rewrite app_nil_r. }
  induction targeted as [|p targeted IH]; [reflexivity|].
  destruct targeted as [|q targeted].
  - simpl. rewrite Hone. now rewrite app_nil_r.
  - change (JS.join JS.nl (List.map ann (p :: q :: targeted)))
      with (ann p ++ JS.nl ++ JS.join JS.nl (List.map ann (q :: targeted))).
    rewrite !sapp_assoc, Hone.
    rewrite (scan_outside_skip JS.nl) by reflexivity.
    rewrite IH.
    change (flat_map pick (p :: q :: targeted))
      with (pick p ++ flat_map pick (q :: targeted))%list.
    rewrite List.map_app, concat_app. now rewrite <- app_assoc.
Qed.

(** The literals of the emitted text are those of the annotations of
    [annotatedFiles], one annotation after the other. *)
Lemma literals_emit (env : Env) (opts : TSClientOptions) (relativeOutdir : string) :
  literals (emit env opts relativeOutdir) =
  concat (List.map (annotation_literals (esm opts) relativeOutdir) (filesOf env opts)).
Proof.
  unfold literals, emit, filesOf, buildNFTAnnotations, annotatedFiles, blaze_map,
    targetedPlatforms.
  destruct (dataProxy opts); [reflexivity|].
  destruct (platforms opts) as [platforms0|]; [|reflexivity].
  rewrite literals_engine_annotations.
  rewrite List.map_app, concat_app. f_equal.
  rewrite <- (sapp_nil_r (buildNFTAnnotation _ _ _)).
  rewrite literals_annotation. simpl. now rewrite !app_nil_r.
Qed.

Lemma referenced_annotation (b : bool) (relativeOutdir f x : string) :
  proper_filename f = true ->
  In x (List.map path_basename (annotation_literals b relativeOutdir f)) <-> x = f.
Proof.
  intros Hp. pose proof (proper_filename_parts _ Hp) as (_ & _ & Hs & _).
  unfold annotation_literals. destruct b; simpl.
  - rewrite basename_join_dot by exact Hp. intuition.
  - rewrite basename_join by exact Hp. rewrite basename_segment by exact Hs. intuition.
Qed.

Lemma referenced_files (b : bool) (relativeOutdir x : string) (fs : list string) :
  (forall f, In f fs -> proper_filename f = true) ->
  In x (List.map path_basename (concat (List.map (annotation_literals b relativeOutdir) fs)))
  <-> In x fs.
Proof.
  induction fs as [|f fs IH]; intros Hall; [reflexivity|].
  simpl. rewrite List.map_app, in_app_iff.
  rewrite referenced_annotation by (apply Hall; now left).
  rewrite IH by (intros g Hg; apply Hall; now right).
  intuition.
Qed.

(** C6: the file names the emitter annotates do not depend on the [esm]
    flag, and the flag only selects the syntax of each annotation: with
    either value the string literals of the emitted text are those of one
    annotation per annotated file.  When every annotated file name is a
    proper file name, the set of file names the literals refer to is, for
    both values of the flag, the set of annotated files. *)
Theorem C6_esm_flag_keeps_referenced_files
    (env : Env) (opts : TSClientOptions) (relativeOutdir : string) :
  (forall f, In f (filesOf env opts) -> proper_filename f = true) ->
  filesOf env (with_esm true opts) = filesOf env (with_esm false opts) /\
  (forall b,
      literals (emit env (with_esm b opts) relativeOutdir) =
      concat (List.map (annotation_literals b relativeOutdir) (filesOf env opts))) /\
  (forall x,
      In x (referenced (emit env (with_esm true opts) relativeOutdir)) <->
      In x (referenced (emit env (with_esm false opts) relativeOutdir))) /\
  (forall b x,
      In x (referenced (emit env (with_esm b opts) relativeOutdir)) <->
      In x (filesOf env opts)).
Proof.
  intros Hproper.
  assert (Hlit : forall b,
             literals (emit env (with_esm b opts) relativeOutdir) =
             concat (List.map (annotation_literals b relativeOutdir) (filesOf env opts))).
  { intros b. now rewrite literals_emit. }
  assert (Hrefs : forall b x,
             In x (referenced (emit env (with_esm b opts) relativeOutdir)) <->
             In x (filesOf env opts)).
  { intros b x. unfold referenced. rewrite Hlit. now apply referenced_files. }
  repeat split; try reflexivity; try apply Hlit; try apply Hrefs.
  - intros H. apply Hrefs. now apply Hrefs in H.
  - intros H. apply Hrefs. now apply Hrefs in H.
Qed.

End ModuleFormat.

Lemma C6_esm_flag_keeps_referenced_files_witness :
  In "libquery_engine-windows.so.node"
     (referenced (NFT.buildNFTAnnotations (sample_engine NFT.Library) sample_getNodeAPIName
                    ∅ (with_esm true (sample_opts false ["darwin"; "windows"]))
                    sample_outdir)) /\
  In "libquery_engine-windows.so.node"
     (referenced (NFT.buildNFTAnnotations (sample_engine NFT.Library) sample_getNodeAPIName
                    ∅ (with_esm false (sample_opts false ["darwin"; "windows"]))
                    sample_outdir)).
Proof.
  destruct (C6_esm_flag_keeps_referenced_files (sample_engine NFT.Library)
              sample_getNodeAPIName ∅ (sample_opts false ["darwin"; "windows"])
              sample_outdir) as (_ & _ & _ & Hrefs).
  - intros f Hf. vm_compute in Hf.
    destruct Hf as [<-|[<-|[<-|[]]]]; reflexivity.
  - split; apply Hrefs; vm_compute; right; left; reflexivity.
Defined.

(** ** The orchestrator: selecting fixtures *)

Section Selection.

Import E2E.

Lemma selectTests_empty (names : list string) : selectTests [] names = names.
Proof. reflexivity. Qed.

Lemma selectTests_filter (positional names : list string) :
  positional <> [] ->
  selectTests positional names =
  List.filter (fun p => existsb (fun a => JS.includes p a) positional) names.
Proof. destruct positional; [contradiction | reflexivity]. Qed.

Lemma matches_some_filter (positional : list string) (p : string) :
  existsb (fun a => JS.includes p a) positional = true <->
  exists a, In a positional /\ JS.Substring a p.
Proof.
  rewrite existsb_exists. split; intros (a & Hin & H); exists a; split; auto;
    now apply includes_spec.
Qed.

End Selection.

(** ** The orchestrator: running the fixtures *)

Section Jobs.

Import E2E.

Variable h : Host.

Lemma bind_unfold {A B} (m : M A) (k : A -> M B) (w : World) :
  (m ≫= k) w =
  match m w with
  | (Ok a, w') => k a w'
  | (Throw e, w') => (Throw e, w')
  | (Exit c, w') => (Exit c, w')
  end.
Proof. reflexivity. Qed.

Lemma bind_assoc {A B C} (m : M A) (f : A -> M B) (g : B -> M C) (w : World) :
  ((m ≫= f) ≫= g) w = (m ≫= (fun x => f x ≫= g)) w.
Proof.
  rewrite !bind_unfold. destruct (m w) as [[a|e|c] w']; reflexivity.
Qed.

Lemma bind_ok {A B} (m : M A) (k : A -> M B) (w w' : World) (a : A) :
  m w = (Ok a, w') -> (m ≫= k) w = k a w'.
Proof. intros H. now rewrite bind_unfold, H. Qed.

Lemma bind_throw {A B} (m : M A) (k : A -> M B) (w w' : World) (e : Exn) :
  m w = (Throw e, w') -> (m ≫= k) w = (Throw e, w').
Proof. intros H. now rewrite bind_unfold, H. Qed.

(** What a [docker run] does to the files is the host's. *)
Lemma spawn_docker_run (vols n : string) (w : World) :
  spawn h (DockerRun vols n) w =
  (Ok (exit_status h (history w) (DockerRun vols n)),
   mkWorld (external_effect h (history w) (DockerRun vols n)
              (exit_status h (history w) (DockerRun vols n)) (files w))
           ((DockerRun vols n, exit_status h (history w) (DockerRun vols n)) :: history w)
           (console w)).
Proof. reflexivity. Qed.

Lemma jobOutcomes_names (vols : string) (names : list string) (hist : list (Cmd * Z)) :
  List.map name (jobOutcomes h vols names hist).1 = names.
Proof.
  revert hist. induction names as [|n names IH]; intros hist; [reflexivity|].
  simpl. specialize (IH ((DockerRun vols n, exit_status h hist (DockerRun vols n)) :: hist)).
  destruct (jobOutcomes h vols names _) as [rs hist']. simpl in *. now rewrite IH.
Qed.

Lemma jobOutcomes_history (vols : string) (names : list string) (hist : list (Cmd * Z)) :
  fixturesRun (jobOutcomes h vols names hist).2 = (fixturesRun hist ++ names)%list.
Proof.
  revert hist. induction names as [|n names IH]; intros hist.
  - simpl. now rewrite app_nil_r.
  - simpl. specialize (IH ((DockerRun vols n, exit_status h hist (DockerRun vols n)) :: hist)).
    destruct (jobOutcomes h vols names _) as [rs hist']. simpl in *. rewrite IH.
    unfold fixturesRun. simpl. rewrite flat_map_app. simpl.
    now rewrite <- app_assoc.
Qed.

(** The parallel mode: all jobs are started and joined. *)
Lemma mapM_jobs (vols : string) (names : list string) (w : World) :
  exists w',
    mapM (fun job : M Z => job)
         (List.map (fun path => sh_nothrow h (DockerRun vols path)) names) w =
    (Ok (List.map exitCode (jobOutcomes h vols names (history w)).1), w') /\
    history w' = (jobOutcomes h vols names (history w)).2.
Proof.
  unfold sh_nothrow.
  revert w. induction names as [|n names IH]; intros w.
  - exists w. now repeat split.
  - simpl List.map. simpl mapM.
    rewrite bind_unfold, spawn_docker_run. cbv beta iota.
    set (w1 := mkWorld _ _ _).
    destruct (IH w1) as (w' & Hrun & Hhist).
    exists w'. rewrite bind_unfold, Hrun. simpl.
    subst w1. simpl in *.
    destruct (jobOutcomes h vols names _) as [rs hist']. simpl in *.
    now repeat split.
Qed.

Lemma imap_rebuild (rs : list JobResult) (g : nat -> Z -> JobResult) :
  (forall i r, rs !! i = Some r -> g i (exitCode r) = r) ->
  imap g (List.map exitCode rs) = rs.
Proof.
  revert g. induction rs as [|r rs IH]; intros g Hg; [reflexivity|].
  simpl. f_equal.
  - apply (Hg 0%nat r). reflexivity.
  - apply IH. intros i r' Hi. apply (Hg (S i) r'). exact Hi.
Qed.

Lemma job_result_eta (r : JobResult) : mkJobResult (exitCode r) (name r) = r.
Proof. now destruct r. Qed.

Lemma runJobsInParallel_spec (vols : string) (names : list string) (w : World) :
  exists w',
    runJobsInParallel names
      (List.map (fun path => sh_nothrow h (DockerRun vols path)) names) w =
    (Ok (jobOutcomes h vols names (history w)).1, w') /\
    history w' = (jobOutcomes h vols names (history w)).2.
Proof.
  destruct (mapM_jobs vols names w) as (w' & Hrun & Hhist).
  exists w'. split; [|exact Hhist].
  unfold runJobsInParallel. rewrite bind_unfold, Hrun. unfold mret, M_ret, ret. f_equal.
  f_equal. apply imap_rebuild. intros i r Hi.
  pose proof (jobOutcomes_names vols names (history w)) as Hnames.
  assert (Hn : names !! i = Some (name r)).
  { rewrite <- Hnames. rewrite list_lookup_fmap, Hi. reflexivity. }
  rewrite Hn. simpl. apply job_result_eta.
Qed.

(** The sequential mode. *)
Lemma runJobsInBand_spec (vols : string) (total : nat) (names pre rest : list string)
    (acc : list JobResult) (w : World) :
  names = (pre ++ rest)%list ->
  exists w',
    runJobsInBand total names (List.length pre)
      (List.map (fun path => sh_nothrow h (DockerRun vols path)) rest) acc w =
    (Ok (acc ++ (jobOutcomes h vols rest (history w)).1)%list, w') /\
    history w' = (jobOutcomes h vols rest (history w)).2.
Proof.
  unfold sh_nothrow.
  revert pre acc w. induction rest as [|n rest IH]; intros pre acc w Hnames.
  - exists w. simpl. rewrite app_nil_r. now repeat split.
  - simpl List.map. simpl runJobsInBand.
    rewrite bind_unfold. unfold console_log at 1. cbv beta iota.
    rewrite bind_unfold, spawn_docker_run. cbv beta iota.
    cbn [files history console].
    assert (Hn : names !! List.length pre = Some n).
    { rewrite Hnames. apply list_lookup_middle. reflexivity. }
    rewrite Hn. simpl default.
    match goal with
    | |- context [runJobsInBand _ _ _ _ _ ?w2] => set (w1 := w2)
    end.
    destruct (IH (pre ++ [n])%list
                 (acc ++ [mkJobResult (exit_status h (history w) (DockerRun vols n)) n])%list
                 w1) as (w' & Hrun & Hhist).
    { now rewrite <- app_assoc. }
    exists w'. rewrite length_app in Hrun. simpl in Hrun.
    replace (S (List.length pre)) with (List.length pre + 1)%nat by lia.
    rewrite Hrun. subst w1. simpl in *.
    destruct (jobOutcomes h vols rest _) as [rs hist']. simpl in *.
    rewrite <- app_assoc. now repeat split.
Qed.

Lemma runJobs_spec (args : Args) (names : list string) (vols : string) (w : World) :
  exists w',
    runJobs h args names vols w = (Ok (jobOutcomes h vols names (history w)).1, w') /\
    history w' = (jobOutcomes h vols names (history w)).2.
Proof.
  unfold runJobs. destruct (is_true (runInBand args)).
  - rewrite bind_unfold. unfold console_log at 1. cbv beta iota.
    set (w1 := mkWorld _ _ _).
    destruct (runJobsInBand_spec vols (List.length (List.map (fun path => sh_nothrow h (DockerRun vols path)) names))
                names [] names [] w1 eq_refl) as (w' & Hrun & Hh).
    exists w'. simpl in Hrun. now rewrite Hrun.
  - rewrite bind_unfold. unfold console_log at 1. cbv beta iota.
    set (w1 := mkWorld _ _ _).
    destruct (runJobsInParallel_spec vols names w1) as (w' & Hrun & Hh).
    exists w'. now rewrite Hrun.
Qed.

End Jobs.

(** ** The orchestrator: reporting and the exit code *)

Section Reporting.

Import E2E.

Variable h : Host.

Lemma jobOutcomes_lookup (vols : string) (names : list string) (hist : list (Cmd * Z))
    (i : nat) (n : string) :
  names !! i = Some n ->
  (jobOutcomes h vols names hist).1 !! i =
  Some (mkJobResult
          (exit_status h (jobOutcomes h vols (take i names) hist).2 (DockerRun vols n)) n).
Proof.
  revert hist i. induction names as [|m names IH]; intros hist i Hi; [discriminate|].
  destruct i as [|i].
  - injection Hi as ->. simpl.
    destruct (jobOutcomes h vols names _) as [rs hist']. reflexivity.
  - simpl in Hi. simpl.
    specialize (IH ((DockerRun vols m, exit_status h hist (DockerRun vols m)) :: hist) i Hi).
    destruct (jobOutcomes h vols names _) as [rs hist'].
    destruct (jobOutcomes h vols (take i names) _) as [rs2 hist2].
    exact IH.
Qed.

Lemma sh_result (c : Cmd) (w : World) :
  (exists code w', sh h c w = (Ok code, w') /\ history w' = (c, code) :: history w) \/
  (exists e w', sh h c w = (Throw e, w') /\ history w' = (c, exit_status h (history w) c) :: history w).
Proof.
  unfold sh. rewrite bind_unfold. unfold spawn. cbv beta iota zeta.
  destruct (exit_status h (history w) c =? 0)%Z eqn:E.
  - left. eexists _, _. split; reflexivity.
  - right. eexists _, _. split; reflexivity.
Qed.

Lemma fixturesRun_cons_other (c : Cmd) (code : Z) (hist : list (Cmd * Z)) :
  (forall vols n, c <> DockerRun vols n) ->
  fixturesRun ((c, code) :: hist) = fixturesRun hist.
Proof.
  intros Hc. unfold fixturesRun. simpl. rewrite flat_map_app. simpl.
  destruct c; try now rewrite app_nil_r.
  now destruct (Hc volumeArgs NAME).
Qed.

(** Printing the logs of the failed fixtures ends normally or throws; it
    runs no fixture. *)
Lemma print_logs_result (rs : list JobResult) (w : World) :
  exists r w',
    forM_ rs (fun result =>
       console_log [LStr ("🛑 " ++ name result ++ " failed with exit code"); LNum (exitCode result)];;
       sh h (CatLogs (logsPath h result));;
       ret tt) w = (r, w') /\
    (r = Ok tt \/ exists e, r = Throw e) /\
    (rs = [] -> r = Ok tt) /\
    files w' = files w /\
    fixturesRun (history w') = fixturesRun (history w).
Proof.
  set (body := fun result : JobResult => _).
  assert (Hbody : forall x w0, exists r w1,
             body x w0 = (r, w1) /\ (r = Ok tt \/ exists e, r = Throw e) /\
             files w1 = files w0 /\ fixturesRun (history w1) = fixturesRun (history w0)).
  { intros x w0. unfold body.
    rewrite bind_unfold. unfold console_log at 1. cbv beta iota.
    match goal with
    | |- context [(sh h ?c ≫= _) ?w1] =>
        destruct (sh_result c w1) as [(code & w2 & Hsh & Hh)|(e & w2 & Hsh & Hh)];
        rewrite (bind_unfold (sh h c)), Hsh; cbv beta iota;
        assert (Hfiles : files w2 = files w0)
          by (unfold sh in Hsh; rewrite bind_unfold in Hsh; unfold spawn in Hsh;
              cbv beta iota zeta in Hsh;
              destruct (_ =? _)%Z in Hsh; injection Hsh as _ <-; reflexivity)
    end.
    - exists (Ok tt), w2. repeat split; auto.
      rewrite Hh. simpl. now apply fixturesRun_cons_other.
    - exists (Throw e), w2. repeat split; eauto.
      rewrite Hh. simpl. now apply fixturesRun_cons_other. }
  clearbody body.
  revert w. induction rs as [|x rs IH]; intros w.
  - exists (Ok tt), w. repeat split; auto.
  - cbn [forM_]. rewrite bind_unfold.
    destruct (Hbody x w) as (r1 & w1 & Hx & [->|[e ->]] & Hf1 & Hfix1); rewrite Hx.
    + destruct (IH w1) as (r & w' & Hrun & Hr & _ & Hf & Hfix).
      exists r, w'. rewrite Hrun. repeat split; auto; try discriminate; congruence.
    + exists (Throw e), w1. repeat split; eauto; discriminate.
Qed.

Lemma filter_failed_nil (rs : list JobResult) :
  List.filter failed rs = [] <-> forall r, In r rs -> exitCode r = 0%Z.
Proof.
  induction rs as [|x rs IH]; simpl.
  - split; [intros _ r [] | reflexivity].
  - unfold failed at 1. destruct (Z.eqb_spec (exitCode x) 0) as [E|E]; simpl.
    + rewrite IH. split.
      * intros H r [<-|Hr]; auto.
      * intros H r Hr. apply H. now right.
    + split; [discriminate|]. intros H. destruct E. apply H. now left.
Qed.

(** The report ends normally when no fixture failed and throws
    otherwise. *)
Lemma report_result (args : Args) (rs : list JobResult) (w : World) :
  exists r w',
    report h args rs w = (r, w') /\
    ((forall x, In x rs -> exitCode x = 0%Z) -> r = Ok tt) /\
    ((exists x, In x rs /\ exitCode x <> 0%Z) -> exists e, r = Throw e) /\
    files w' = files w /\
    fixturesRun (history w') = fixturesRun (history w).
Proof.
  unfold report. cbv zeta.
  assert (Hlogs : exists r1 w1,
             when (is_true (verbose args))
               (forM_ (List.filter failed rs) (fun result =>
                  console_log [LStr ("🛑 " ++ name result ++ " failed with exit code");
                               LNum (exitCode result)];;
                  sh h (CatLogs (logsPath h result));;
                  ret tt)) w = (r1, w1) /\
             (r1 = Ok tt \/ exists e, r1 = Throw e) /\
             (List.filter failed rs = [] -> r1 = Ok tt) /\
             files w1 = files w /\
             fixturesRun (history w1) = fixturesRun (history w)).
  { unfold when. destruct (is_true (verbose args)).
    - apply print_logs_result.
    - exists (Ok tt), w. repeat split; auto. }
  destruct Hlogs as (r1 & w1 & Hrun & Hr1 & Hnil & Hf & Hfix).
  rewrite bind_unfold, Hrun.
  destruct (List.filter failed rs) as [|x failedRest] eqn:Efailed.
  - rewrite (Hnil eq_refl). cbv beta iota.
    change (0 <? List.length (@nil JobResult))%nat with false. cbv iota.
    unfold console_log. eexists _, _. split; [reflexivity|].
    repeat split; auto.
    intros (y & Hy & Hne). exfalso. apply Hne.
    now apply (proj1 (filter_failed_nil rs) Efailed).
  - assert (Hsome : ~ (forall y, In y rs -> exitCode y = 0%Z)).
    { intros Hall. apply filter_failed_nil in Hall. congruence. }
    destruct Hr1 as [->|[e ->]]; cbv beta iota.
    + change (0 <? List.length (x :: failedRest))%nat with true. cbv iota.
      rewrite bind_unfold. unfold console_log at 1. cbv beta iota.
      rewrite bind_unfold. unfold console_log at 1. cbv beta iota.
      unfold throw. eexists _, _. split; [reflexivity|].
      repeat split; eauto. intros Hall. now destruct Hsome.
    + eexists _, _. split; [reflexivity|].
      repeat split; eauto. intros Hall. now destruct Hsome.
Qed.

(** The stages of [main], split at the fixture-execution stage. *)
Lemma stages_split (args : Args) (w : World) :
  stages h args w =
  (reachFixtures h args ≫= fun tests =>
     runJobs h args tests.1 tests.2 ≫= fun jobResults =>
     report h args jobResults) w.
Proof.
  unfold stages, reachFixtures.
  rewrite !bind_unfold.
  destruct (cleanUp h args w) as [[[]|e|c] w0]; try reflexivity.
  rewrite !bind_unfold.
  destruct (prepareManifests h w0) as [[[]|e|c] w1]; try reflexivity.
  rewrite !bind_unfold.
  destruct (packTarballs h args w1) as [[[]|e|c] w2]; reflexivity.
Qed.

End Reporting.

(** ** The orchestrator: the fixture stage *)

Section FixtureStage.

Import E2E.

Variable h : Host.

(** The run from the fixture-execution stage on. *)
Lemma run_from_fixtures (args0 : Args) (w w1 : World) (tests : list string * string) :
  reachFixtures h (withDefaults args0) w = (Ok tests, w1) ->
  exists w2 r w3,
    runJobs h (withDefaults args0) tests.1 tests.2 w1 =
      (Ok (jobOutcomes h tests.2 tests.1 (history w1)).1, w2) /\
    history w2 = (jobOutcomes h tests.2 tests.1 (history w1)).2 /\
    report h (withDefaults args0) (jobOutcomes h tests.2 tests.1 (history w1)).1 w2 = (r, w3) /\
    main h (inr args0) w = (r, w3) /\
    ((forall x, In x (jobOutcomes h tests.2 tests.1 (history w1)).1 -> exitCode x = 0%Z) ->
     r = Ok tt) /\
    ((exists x, In x (jobOutcomes h tests.2 tests.1 (history w1)).1 /\ exitCode x <> 0%Z) ->
     exists e, r = Throw e) /\
    files w3 = files w2 /\
    fixturesRun (history w3) = (fixturesRun (history w1) ++ tests.1)%list.
Proof.
  intros Hreach.
  destruct (runJobs_spec h (withDefaults args0) tests.1 tests.2 w1)
    as (w2 & Hjobs & Hh2).
  destruct (report_result h (withDefaults args0)
              (jobOutcomes h tests.2 tests.1 (history w1)).1 w2)
    as (r & w3 & Hrep & Hok & Hfail & Hf3 & Hfix3).
  exists w2, r, w3. repeat split; auto.
  - unfold main. rewrite stages_split, bind_unfold, Hreach.
    cbv beta iota. now rewrite bind_unfold, Hjobs.
  - now rewrite Hfix3, Hh2, jobOutcomes_history.
Qed.

(** C4: in a run that reaches the fixture-execution stage, the exit
    code of the process is non-zero exactly when some fixture's
    subprocess reports a non-zero exit code, and it is zero when all
    report zero. *)
Theorem C4_exit_code_reflects_fixture_failures
    (args0 : Args) (w w1 : World) (tests : list string * string) :
  reachFixtures h (withDefaults args0) w = (Ok tests, w1) ->
  let reported := (jobOutcomes h tests.2 tests.1 (history w1)).1 in
  ((run h (inr args0) w).1 <> 0%Z <-> exists x, In x reported /\ exitCode x <> 0%Z) /\
  ((forall x, In x reported -> exitCode x = 0%Z) -> (run h (inr args0) w).1 = 0%Z).
Proof.
  intros Hreach reported.
  destruct (run_from_fixtures args0 w w1 tests Hreach)
    as (w2 & r & w3 & _ & _ & _ & Hmain & Hok & Hfail & _).
  fold reported in Hok, Hfail.
  assert (Hdec : (forall x, In x reported -> exitCode x = 0%Z) \/
                 (exists x, In x reported /\ exitCode x <> 0%Z)).
  { clear. induction reported as [|x l IH]; [left; intros x []|].
    destruct (Z.eq_dec (exitCode x) 0%Z) as [E|E].
    - destruct IH as [IH|(y & Hy & Hne)].
      + left. intros z [<-|Hz]; auto.
      + right. exists y. split; [now right | exact Hne].
    - right. exists x. split; [now left | exact E]. }
  unfold run. rewrite Hmain.
  destruct Hdec as [Hall|Hsome].
  - rewrite (Hok Hall). simpl. split; [|reflexivity].
    split; [congruence|]. intros (x & Hx & Hne). destruct Hne. now apply Hall.
  - destruct (Hfail Hsome) as [e ->]. simpl. split.
    + split; [intros _; exact Hsome | discriminate].
    + intros Hall. destruct Hsome as (x & Hx & Hne). destruct Hne. now apply Hall.
Qed.

(** C5: the fixtures run are those selected from the discovered ones:
    all of them when no positional filter is given, and otherwise exactly
    those whose name contains one of the filters, in the order of
    discovery. *)
Theorem C5_filters_select_fixtures
    (args0 : Args) (w w1 : World) (tests : list string * string) :
  reachFixtures h (withDefaults args0) w = (Ok tests, w1) ->
  (positional args0 = [] -> tests.1 = discovered h) /\
  (positional args0 <> [] ->
     tests.1 = List.filter (fun p => existsb (fun a => JS.includes p a) (positional args0))
                           (discovered h) /\
     forall x, In x tests.1 <->
               In x (discovered h) /\ exists a, In a (positional args0) /\ JS.Substring a x) /\
  exists r w3,
    main h (inr args0) w = (r, w3) /\
    fixturesRun (history w3) = (fixturesRun (history w1) ++ tests.1)%list.
Proof.
  intros Hreach.
  assert (Hsel : tests.1 = selectTests (positional args0) (discovered h)).
  { unfold reachFixtures in Hreach. rewrite !bind_unfold in Hreach.
    destruct (cleanUp h (withDefaults args0) w) as [[[]|e|c] w0]; try discriminate.
    rewrite !bind_unfold in Hreach.
    destruct (prepareManifests h w0) as [[[]|e|c] wp]; try discriminate.
    rewrite !bind_unfold in Hreach.
    destruct (packTarballs h (withDefaults args0) wp) as [[[]|e|c] wt]; try discriminate.
    unfold discoverTests in Hreach.
    rewrite bind_unfold in Hreach. unfold console_log at 1 in Hreach.
    cbv beta iota zeta in Hreach.
    rewrite bind_unfold in Hreach.
    destruct (sh h PnpmStorePath _) as [[code|e|c] ws]; try discriminate.
    rewrite bind_unfold in Hreach.
    destruct (sh h DockerBuild ws) as [[code'|e|c] wd]; try discriminate.
    injection Hreach as <- _. reflexivity. }
  split; [|split].
  - intros Hnone. rewrite Hsel, Hnone. reflexivity.
  - intros Hsome. rewrite Hsel, selectTests_filter by exact Hsome.
    split; [reflexivity|]. intros x.
    rewrite filter_In, matches_some_filter. reflexivity.
  - destruct (run_from_fixtures args0 w w1 tests Hreach)
      as (w2 & r & w3 & _ & _ & _ & Hmain & _ & _ & _ & Hfix).
    now exists r, w3.
Qed.

(** C9: whatever the exit codes, and in both modes, the job stage
    completes; every selected fixture is run, in order, and the result
    list holds, at the position of each fixture, its name and the exit
    code its subprocess reported. *)
Theorem C9_every_fixture_runs
    (args : Args) (names : list string) (dockerVolumeArgs : string) (w : World) :
  exists jobResults w',
    runJobs h args names dockerVolumeArgs w = (Ok jobResults, w') /\
    List.map name jobResults = names /\
    fixturesRun (history w') = (fixturesRun (history w) ++ names)%list /\
    forall i n, names !! i = Some n ->
      jobResults !! i =
      Some (mkJobResult
              (exit_status h (jobOutcomes h dockerVolumeArgs (take i names) (history w)).2
                 (DockerRun dockerVolumeArgs n)) n).
Proof.
  destruct (runJobs_spec h args names dockerVolumeArgs w) as (w' & Hrun & Hh).
  exists (jobOutcomes h dockerVolumeArgs names (history w)).1, w'.
  split; [exact Hrun|]. split; [apply jobOutcomes_names|].
  split; [rewrite Hh; apply jobOutcomes_history|].
  intros i n Hi. now apply jobOutcomes_lookup.
Qed.

End FixtureStage.

(** ** The orchestrator: rewriting the manifests *)

Section ManifestRewrite.

Import E2E.

#[local] Arguments JS.startsWith : simpl never.

Lemma tarballPath_prisma (rest : string) :
  tarballPath ("@prisma/" ++ rest) = "/tmp/prisma-" ++ rest ++ "-0.0.0.tgz".
Proof. reflexivity. Qed.

Lemma rewriteKeys_object (keys : list string) (deps : gmap string JSValue) :
  rewriteKeys (JObj deps) keys = Some (JObj (rewriteEntries keys deps)).
Proof.
  revert deps. induction keys as [|key keys IH]; intros deps; [reflexivity|].
  simpl. unfold rewriteKey. destruct (JS.startsWith key "@prisma/"); simpl; apply IH.
Qed.

Lemma rewriteEntries_lookup (keys : list string) (deps : gmap string JSValue) (k : string) :
  rewriteEntries keys deps !! k =
  if JS.startsWith k "@prisma/" && bool_decide (k ∈ keys)
  then Some (JStr (tarballPath k)) else deps !! k.
Proof.
  revert deps. induction keys as [|key keys IH]; intros deps.
  - simpl. now rewrite andb_false_r.
  - unfold rewriteEntries. simpl. fold (rewriteEntries keys).
    rewrite IH. destruct (JS.startsWith k "@prisma/") eqn:Hk; simpl.
    + destruct (decide (k ∈ keys)) as [Hin|Hnin].
      * rewrite !bool_decide_eq_true_2; [reflexivity | | exact Hin]. now right.
      * rewrite (bool_decide_eq_false_2 (k ∈ keys)) by exact Hnin.
        destruct (decide (k = key)) as [->|Hne].
        -- rewrite bool_decide_eq_true_2 by now left.
           rewrite Hk. now rewrite lookup_insert_eq.
        -- rewrite bool_decide_eq_false_2.
           2:{ intros [E|E]%elem_of_cons; [now apply Hne | now apply Hnin]. }
           destruct (JS.startsWith key "@prisma/"); [|reflexivity].
           now rewrite lookup_insert_ne by congruence.
    + destruct (JS.startsWith key "@prisma/") eqn:Hkey; [|reflexivity].
      rewrite lookup_insert_ne; [reflexivity|]. intros ->. congruence.
Qed.

Lemma rewriteEntries_keys (deps : gmap string JSValue) (k : string) :
  rewriteEntries (map_to_list deps).*1 deps !! k = rewrittenEntry k (deps !! k).
Proof.
  rewrite rewriteEntries_lookup. unfold rewrittenEntry.
  destruct (JS.startsWith k "@prisma/"); [|reflexivity]. simpl.
  destruct (deps !! k) as [v|] eqn:Hk.
  - rewrite bool_decide_eq_true_2; [reflexivity|].
    apply list_elem_of_fmap. exists (k, v). split; [reflexivity|].
    now apply elem_of_map_to_list.
  - rewrite bool_decide_eq_false_2; [reflexivity|].
    intros ([k' v] & -> & Hin)%list_elem_of_fmap.
    apply elem_of_map_to_list in Hin. simpl in Hk. congruence.
Qed.




End ManifestRewrite.

(** ** The orchestrator: saving and restoring the manifests *)

Section SaveRestore.

Import E2E.

Variable h : Host.






End SaveRestore.

(** ** The orchestrator: the stages around the build *)

Section PackStage.

Import E2E.

Variable h : Host.

Lemma sh_unfold (c : Cmd) (w : World) :
  sh h c w =
  if (exit_status h (history w) c =? 0)%Z
  then (Ok (exit_status h (history w) c),
        mkWorld (effect h (history w) c (exit_status h (history w) c) (files w))
                ((c, exit_status h (history w) c) :: history w) (console w))
  else (Throw (ProcessFailed c (exit_status h (history w) c)),
        mkWorld (effect h (history w) c (exit_status h (history w) c) (files w))
                ((c, exit_status h (history w) c) :: history w) (console w)).
Proof.
  unfold sh. rewrite bind_unfold. unfold spawn. cbv zeta.
  now destruct (exit_status h (history w) c =? 0)%Z.
Qed.

Lemma load_keeps_world (folders : list string) (w : World) r w' :
  mapM (fun p => liftE (require h p) (ModuleNotFound p)) folders w = (r, w') -> w' = w.
Proof.
  revert r w'. induction folders as [|p folders IH]; intros r w' H.
  - now injection H as _ <-.
  - cbn [mapM] in H. rewrite bind_unfold in H.
    destruct (require h p) as [obj|]; cbn [liftE] in H.
    + change (ret obj w) with (@Ok JSValue obj, w) in H. cbv beta iota in H.
      rewrite bind_unfold in H.
      destruct (mapM _ folders w) as [[objs|e|c] w1] eqn:Erest.
      * injection H as _ <-. now apply (IH _ _ eq_refl).
      * injection H as _ <-. now apply (IH _ _ eq_refl).
      * injection H as _ <-. now apply (IH _ _ eq_refl).
    + now injection H as _ <-.
Qed.

(** The stages of [main], split at the [try] block. *)
Lemma stages_split_packing (args : Args) (w : World) :
  stages h args w =
  (reachPacking h args ≫= fun _ =>
     packTarballs h args ≫= fun _ =>
     discoverTests h args ≫= fun tests =>
     runJobs h args tests.1 tests.2 ≫= fun jobResults =>
     report h args jobResults) w.
Proof.
  unfold stages, reachPacking. rewrite !bind_unfold.
  destruct (cleanUp h args w) as [[[]|e|c] w0]; reflexivity.
Qed.

End PackStage.

(** ** Sample runs *)

(** C3: a workspace of two projects with different manifests, the
    build failing and every other command succeeding.  The restore
    command is run right after the failure, it succeeds, and the run
    ends with exit code 1; but the save command has copied every
    manifest to one and the same file, so the restore command writes
    the manifest of the project saved last over every manifest: the
    manifest of the client package is not what it was when the run
    started. *)
Theorem C3_restore_overwrites_manifests :
  let final := E2E.run (sample_host build_fails) (inr (sample_args [])) sample_world in
  final.1 = 1%Z /\
  (exists older,
     E2E.history final.2 =
     (E2E.RestoreManifests, 0%Z) :: (E2E.PnpmBuild, 1%Z) :: (E2E.SaveManifests, 0%Z) :: older) /\
  E2E.files final.2 !! "/repo/packages/client/package.json" =
    E2E.files sample_world !! "/repo/packages/cli/package.json" /\
  E2E.files final.2 !! "/repo/packages/client/package.json" <>
    E2E.files sample_world !! "/repo/packages/client/package.json".
Proof.
  cbv zeta. split; [vm_compute; reflexivity|].
  split; [eexists; vm_compute; reflexivity|].
  split; [vm_compute; reflexivity|].
  vm_compute. discriminate.
Qed.

Lemma C4_exit_code_reflects_fixture_failures_witness :
  (E2E.run (sample_host extensions_fails) (inr (sample_args [])) sample_world).1 <> 0%Z /\
  (E2E.run (sample_host all_succeed) (inr (sample_args [])) sample_world).1 = 0%Z.
Proof.
  split.
  - assert (Hreach : reachFixtures (sample_host extensions_fails)
                       (E2E.withDefaults (sample_args [])) sample_world
                     = (E2E.Ok sample_tests_all, sample_world_extensions_fails))
      by (vm_compute; reflexivity).
    destruct (C4_exit_code_reflects_fixture_failures (sample_host extensions_fails)
                (sample_args []) sample_world _ _ Hreach) as [Hiff _].
    apply Hiff. exists (E2E.mkJobResult 2 "extensions"). split.
    + vm_compute. right. left. reflexivity.
    + discriminate.
  - assert (Hreach : reachFixtures (sample_host all_succeed)
                       (E2E.withDefaults (sample_args [])) sample_world
                     = (E2E.Ok sample_tests_all, sample_world_all_succeed))
      by (vm_compute; reflexivity).
    destruct (C4_exit_code_reflects_fixture_failures (sample_host all_succeed)
                (sample_args []) sample_world _ _ Hreach) as [_ Hzero].
    apply Hzero. intros x Hx. vm_compute in Hx.
    destruct Hx as [<-|[<-|[<-|[]]]]; reflexivity.
Defined.

Lemma C5_filters_select_fixtures_witness :
  exists r w3,
    E2E.main (sample_host all_succeed) (inr (sample_args ["ext"; "adapters"])) sample_world
      = (r, w3) /\
    fixturesRun (E2E.history w3) = ["extensions"; "driver-adapters"].
Proof.
  assert (Hreach : reachFixtures (sample_host all_succeed)
                     (E2E.withDefaults (sample_args ["ext"; "adapters"])) sample_world
                   = (E2E.Ok sample_tests_filtered, sample_world_filtered))
    by (vm_compute; reflexivity).
  destruct (C5_filters_select_fixtures (sample_host all_succeed)
              (sample_args ["ext"; "adapters"]) sample_world _ _ Hreach)
    as (_ & _ & r & w3 & Hmain & Hrun).
  exists r, w3. split; [exact Hmain|]. rewrite Hrun. vm_compute. reflexivity.
Defined.


(* ===================================================================== *)
(** * Further properties *)
(* ===================================================================== *)

(** ** More on the annotation emitter *)

Section EmitterMore.

Import NFT.

Variable getClientEngineType : Env -> option JSValue -> ClientEngineType.
Variable getNodeAPIName : Platform -> NodeAPIKind -> string.

Let emit := buildNFTAnnotations getClientEngineType getNodeAPIName.
Let filesOf := annotatedFiles getClientEngineType getNodeAPIName.

(** X1: whatever the characters of the file name and of the output
    directory, the string literals of one annotation read back as the
    paths it was built from: [path.join('.', fileName)] under [esm], and
    otherwise [fileName] followed by [path.join(relativeOutdir, fileName)]. *)
Theorem X1_annotation_reads_back (esm : bool) (fileName relativeOutdir : string) :
  literals (buildNFTAnnotation esm fileName relativeOutdir) =
  if esm then [path.join ["."; fileName]]
  else [fileName; path.join [relativeOutdir; fileName]].
Proof.
  unfold literals.
  rewrite <- (sapp_nil_r (buildNFTAnnotation esm fileName relativeOutdir)).
  rewrite literals_annotation. unfold annotation_literals.
  destruct esm; reflexivity.
Qed.

Lemma annotation_esm_ignores_outdir (f out1 out2 : string) :
  buildNFTAnnotation true f out1 = buildNFTAnnotation true f out2.
Proof. reflexivity. Qed.

(** X2: with the [esm] flag set, the emitted text does not depend on the
    output directory. *)
Theorem X2_esm_ignores_outdir
    (env : Env) (opts : TSClientOptions) (out1 out2 : string) :
  esm opts = true -> emit env opts out1 = emit env opts out2.
Proof.
  intros Hesm. unfold emit, buildNFTAnnotations, blaze_map. rewrite Hesm.
  destruct (dataProxy opts); [reflexivity|].
  destruct (platforms opts) as [platforms0|]; reflexivity.
Qed.

(** X3: whenever annotations are emitted at all, whatever the engine
    type and the environment, the text ends with the annotation of
    [schema.prisma], and [schema.prisma] is among the files its literals
    refer to. *)
Theorem X3_schema_always_annotated
    (env : Env) (opts : TSClientOptions) (relativeOutdir : string)
    (platforms0 : list Platform) :
  dataProxy opts = false -> platforms opts = Some platforms0 ->
  (exists engineAnnotations,
      emit env opts relativeOutdir =
      engineAnnotations ++ buildNFTAnnotation (esm opts) "schema.prisma" relativeOutdir) /\
  In "schema.prisma" (referenced (emit env opts relativeOutdir)).
Proof.
  intros Hd Hp. split.
  - eexists. apply (emit_unfold _ _ _ _ _ platforms0 Hd Hp).
  - unfold referenced. unfold emit. rewrite literals_emit.
    unfold annotatedFiles. rewrite Hd, Hp.
    rewrite List.map_app, concat_app, List.map_app. apply in_or_app. right.
    simpl. rewrite app_nil_r.
    apply (proj2 (referenced_annotation (esm opts) relativeOutdir "schema.prisma"
                    "schema.prisma" eq_refl)).
    reflexivity.
Qed.

(** X4: a defined but empty platform list yields the schema annotation
    alone, unless NETLIFY is set: the replacement of the list applies to
    an empty list too, and the result is then that of the list
    ['rhel-openssl-1.0.x']. *)
Theorem X4_empty_platform_list
    (env : Env) (opts : TSClientOptions) (relativeOutdir : string) :
  dataProxy opts = false -> platforms opts = Some [] ->
  (JS.truthy_opt (env !! "NETLIFY") = false ->
   emit env opts relativeOutdir =
   buildNFTAnnotation (esm opts) "schema.prisma" relativeOutdir) /\
  (JS.truthy_opt (env !! "NETLIFY") = true ->
   emit env opts relativeOutdir =
   emit env (mkTSClientOptions false (Some ["rhel-openssl-1.0.x"]) (esm opts) (generator opts))
        relativeOutdir).
Proof.
  intros Hd Hp. unfold emit, buildNFTAnnotations, blaze_map. rewrite Hd, Hp. simpl.
  split; intros ->; reflexivity.
Qed.



End EmitterMore.

Lemma X2_esm_ignores_outdir_witness :
  NFT.buildNFTAnnotations (sample_engine NFT.Library) sample_getNodeAPIName ∅
    (sample_opts true ["darwin"]) "a/b" =
  NFT.buildNFTAnnotations (sample_engine NFT.Library) sample_getNodeAPIName ∅
    (sample_opts true ["darwin"]) "/elsewhere".
Proof.
  apply (X2_esm_ignores_outdir (sample_engine NFT.Library) sample_getNodeAPIName ∅
           (sample_opts true ["darwin"]) "a/b" "/elsewhere").
  reflexivity.
Defined.

Lemma X3_schema_always_annotated_witness :
  In "schema.prisma"
     (referenced (NFT.buildNFTAnnotations (sample_engine NFT.OtherEngine) sample_getNodeAPIName
                    netlify_env (sample_opts false ["darwin"]) sample_outdir)).
Proof.
  apply (X3_schema_always_annotated (sample_engine NFT.OtherEngine) sample_getNodeAPIName
           netlify_env (sample_opts false ["darwin"]) sample_outdir ["darwin"]);
    reflexivity.
Defined.

Lemma X4_empty_platform_list_witness :
  NFT.buildNFTAnnotations (sample_engine NFT.Binary) sample_getNodeAPIName ∅
    (sample_opts true []) sample_outdir =
  NFT.buildNFTAnnotation true "schema.prisma" sample_outdir.
Proof.
  destruct (X4_empty_platform_list (sample_engine NFT.Binary) sample_getNodeAPIName ∅
              (sample_opts true []) sample_outdir eq_refl eq_refl) as [H _].
  apply H. vm_compute. reflexivity.
Defined.


(** ** The module helpers *)

Section HelperFacts.

Import ModuleHelpers.

Context {Scope Value : Type}.

Lemma copyProp_lookup (except : option string) (to : gmap string (Property Scope Value))
    (k0 : string) (p0 : Property Scope Value) (key : string) :
  copyProp Scope Value except to (k0, p0) !! key =
  match to !! key with
  | Some p => Some p
  | None =>
      if decide (key = k0)
      then (if bool_decide (except = Some k0) then None else Some (forwarded Scope Value p0))
      else None
  end.
Proof.
  unfold copyProp. cbn [fst snd].
  destruct (decide (key = k0)) as [->|Hne].
  - destruct (to !! k0) as [p|] eqn:Hto; [now rewrite Hto|].
    destruct (bool_decide (except = Some k0)); [now rewrite Hto|].
    apply lookup_insert_eq.
  - destruct (to !! k0) as [p|].
    + now destruct (to !! key).
    + destruct (bool_decide (except = Some k0)).
      * now destruct (to !! key).
      * rewrite lookup_insert_ne by congruence. now destruct (to !! key).
Qed.

Lemma copyProp_fold (except : option string) (entries : list (string * Property Scope Value))
    (to : gmap string (Property Scope Value)) (key : string) :
  NoDup entries.*1 ->
  fold_left (copyProp Scope Value except) entries to !! key =
  match to !! key with
  | Some p => Some p
  | None =>
      if bool_decide (except = Some key) then None
      else forwarded Scope Value <$>
             (list_to_map entries : gmap string (Property Scope Value)) !! key
  end.
Proof.
  revert to. induction entries as [|[k0 p0] entries IH]; intros to Hnd.
  - simpl. rewrite lookup_empty. destruct (to !! key); [reflexivity|].
    now destruct (bool_decide _).
  - simpl in Hnd. apply NoDup_cons in Hnd as [Hk0 Hnd].
    cbn [fold_left]. rewrite IH by exact Hnd. clear IH.
    rewrite copyProp_lookup.
    change (list_to_map ((k0, p0) :: entries) : gmap string (Property Scope Value))
      with (<[k0:=p0]> (list_to_map entries : gmap string (Property Scope Value))).
    destruct (to !! key) as [p|]; [reflexivity|].
    destruct (decide (key = k0)) as [->|Hne].
    + rewrite lookup_insert_eq.
      destruct (bool_decide (except = Some k0)); [|reflexivity].
      reflexivity.
    + rewrite lookup_insert_ne by congruence. reflexivity.
Qed.

Lemma copyProps_lookup (to from : gmap string (Property Scope Value))
    (except : option string) (key : string) :
  __copyProps Scope Value to (Some from) except !! key =
  match to !! key with
  | Some p => Some p
  | None => if bool_decide (except = Some key) then None
            else forwarded Scope Value <$> from !! key
  end.
Proof.
  unfold __copyProps. rewrite copyProp_fold by apply NoDup_fst_map_to_list.
  now rewrite list_to_map_to_list.
Qed.

(** X6: [__copyProps] never replaces a property [to] already owns and
    never copies the name [except]; every other own property of [from]
    becomes a property of [to] that reads the same value as [from]'s in
    every state of the module, with the same enumerability, and is not
    configurable.  A [from] that is no object leaves [to] as it is. *)
Theorem X6_copyProps_lookup (to from : gmap string (Property Scope Value))
    (except : option string) (key : string) :
  __copyProps Scope Value to (Some from) except !! key =
    match to !! key with
    | Some p => Some p
    | None => if bool_decide (except = Some key) then None
              else forwarded Scope Value <$> from !! key
    end /\
  __copyProps Scope Value to None except = to.
Proof.
  split; [apply copyProps_lookup | reflexivity].
Qed.

(** X7: the object [__toCommonJS] builds owns [__esModule], a
    non-enumerable property that reads [true] even when the module has
    an export of that name, and, for every other export of the module, a
    property that reads what the module's own property reads, in every
    state of the module's variables. *)
Theorem X7_toCommonJS_exports (vtrue : Value)
    (exported : gmap string (Property Scope Value)) (key : string) :
  __toCommonJS Scope Value vtrue exported !! "__esModule" =
    Some (mkProperty Scope Value (fun _ => vtrue) false false) /\
  (key <> "__esModule" ->
   __toCommonJS Scope Value vtrue exported !! key = forwarded Scope Value <$> exported !! key) /\
  (forall p, exported !! key = Some p -> key <> "__esModule" ->
     exists q, __toCommonJS Scope Value vtrue exported !! key = Some q /\
               (forall sc, read Scope Value q sc = read Scope Value p sc) /\
               enumerable Scope Value q = enumerable Scope Value p).
Proof.
  assert (Hother : key <> "__esModule" ->
            __toCommonJS Scope Value vtrue exported !! key = forwarded Scope Value <$> exported !! key).
  { intros Hne. unfold __toCommonJS. rewrite copyProps_lookup.
    rewrite lookup_singleton_ne by congruence. reflexivity. }
  split; [|split; [exact Hother|]].
  - unfold __toCommonJS. rewrite copyProps_lookup.
    now rewrite lookup_singleton_eq.
  - intros p Hp Hne. rewrite (Hother Hne), Hp. simpl.
    eexists. split; [reflexivity|]. split; reflexivity.
Qed.

End HelperFacts.

(** ** More on the manifest rewrite *)

Section RewriteMore.

Import E2E.

#[local] Arguments JS.startsWith : simpl never.

Lemma nat_to_string_aux_digit (fuel n : nat) (acc : string) :
  (exists d r, (d < 10)%nat /\
     String (ascii_of_nat (48 + d)) r = nat_to_string_aux (S fuel) n acc).
Proof.
  revert n acc. induction fuel as [|fuel IH]; intros n acc.
  - exists (n mod 10)%nat, acc. split; [apply Nat.mod_upper_bound; lia|].
    cbn [nat_to_string_aux]. now destruct (n / 10 =? 0)%nat.
  - cbn [nat_to_string_aux]. destruct (n / 10 =? 0)%nat.
    + exists (n mod 10)%nat, acc. split; [apply Nat.mod_upper_bound; lia | reflexivity].
    + apply IH.
Qed.

Lemma digit_not_prisma (d : nat) (r : string) :
  (d < 10)%nat -> JS.startsWith (String (ascii_of_nat (48 + d)) r) "@prisma/" = false.
Proof.
  intros Hd.
  do 10 (destruct d as [|d]; [reflexivity|]). lia.
Qed.

(** An index key is no [@prisma/] key. *)
Lemma index_key_not_prisma (n : nat) : JS.startsWith (nat_to_string n) "@prisma/" = false.
Proof.
  unfold nat_to_string.
  destruct (nat_to_string_aux_digit n n "") as (d & r & Hd & <-).
  now apply digit_not_prisma.
Qed.

Lemma rewriteKeys_no_prisma (d : JSValue) (keys : list string) :
  (forall k, In k keys -> JS.startsWith k "@prisma/" = false) ->
  rewriteKeys d keys = Some d.
Proof.
  induction keys as [|k keys IH]; intros Hall; [reflexivity|].
  cbn [rewriteKeys]. unfold rewriteKey. rewrite (Hall k (or_introl eq_refl)).
  apply IH. intros k' Hk'. apply Hall. now right.
Qed.

Lemma rewriteKeys_index (d : JSValue) (len : nat) :
  rewriteKeys d (index_keys len) = Some d.
Proof.
  apply rewriteKeys_no_prisma. unfold index_keys.
  intros k (n & <- & _)%in_map_iff. apply index_key_not_prisma.
Qed.

(** What the inner loop makes of a [dependencies] value. *)
Lemma rewriteDependencies_object (props : gmap string JSValue) (d : JSValue) :
  props !! "dependencies" = Some d ->
  rewriteDependencies (JObj props) =
  match d with
  | JNull => None
  | JObj deps =>
      Some (JObj (<["dependencies" := JObj (rewriteEntries (map_to_list deps).*1 deps)]> props))
  | _ => Some (JObj props)
  end.
Proof.
  intros Hd. unfold rewriteDependencies. cbn [get_prop]. rewrite Hd.
  destruct d as [|b|n|s|items|deps]; cbn [Object_keys].
  - reflexivity.
  - cbn [rewriteKeys]. now rewrite insert_id.
  - cbn [rewriteKeys]. now rewrite insert_id.
  - rewrite rewriteKeys_index. now rewrite insert_id.
  - rewrite rewriteKeys_index. now rewrite insert_id.
  - now rewrite rewriteKeys_object.
Qed.

(** X12: the inner loop throws (a [TypeError]) exactly when the loaded
    value is not an object, has no [dependencies] property, or has
    [null] there; the outer loop then stops at that manifest without
    writing it or any later one. *)
Theorem X12_rewrite_fails_without_dependencies (obj : JSValue) :
  (rewriteDependencies obj = None <->
   ~ exists props d, obj = JObj props /\ props !! "dependencies" = Some d /\ d <> JNull) /\
  (rewriteDependencies obj = None ->
   forall p paths objs w,
     rewriteManifests (p :: paths) (obj :: objs) w = (Throw TypeError, w)).
Proof.
  split.
  - split.
    + intros Hnone (props & d & -> & Hd & Hnn).
      rewrite (rewriteDependencies_object _ _ Hd) in Hnone.
      destruct d; try discriminate. now apply Hnn.
    + intros Hno. destruct obj as [|b|n|s|items|props]; try reflexivity.
      destruct (props !! "dependencies") as [d|] eqn:Hd.
      * rewrite (rewriteDependencies_object _ _ Hd).
        destruct d; try (exfalso; apply Hno; eexists _, _; repeat split; eauto; discriminate).
        reflexivity.
      * unfold rewriteDependencies. cbn [get_prop]. now rewrite Hd.
  - intros Hnone p paths objs w. cbn [rewriteManifests].
    rewrite bind_unfold, Hnone. reflexivity.
Qed.

(** X13: a [dependencies] value that is not an object (an array, a
    string, a number or a boolean) has no key starting with ['@prisma/'];
    the manifest object comes out of the inner loop as it went in. *)
Theorem X13_non_object_dependencies_unchanged (props : gmap string JSValue) (d : JSValue) :
  props !! "dependencies" = Some d ->
  d <> JNull -> (forall deps, d <> JObj deps) ->
  rewriteDependencies (JObj props) = Some (JObj props).
Proof.
  intros Hd Hnn Hno. rewrite (rewriteDependencies_object _ _ Hd).
  destruct d; try reflexivity; [now destruct Hnn | now destruct (Hno props0)].
Qed.

Lemma rewrittenEntry_idempotent (key : string) (entry : option JSValue) :
  rewrittenEntry key (rewrittenEntry key entry) = rewrittenEntry key entry.
Proof.
  unfold rewrittenEntry. destruct (JS.startsWith key "@prisma/"); [|reflexivity].
  now destruct entry.
Qed.

(** X14: rewriting is idempotent: the inner loop leaves an object it has
    produced as it is. *)
Theorem X14_rewrite_idempotent (obj obj' : JSValue) :
  rewriteDependencies obj = Some obj' -> rewriteDependencies obj' = Some obj'.
Proof.
  intros H. destruct obj as [|b|n|s|items|props]; try discriminate.
  destruct (props !! "dependencies") as [d|] eqn:Hd.
  2:{ unfold rewriteDependencies in H. cbn [get_prop] in H. now rewrite Hd in H. }
  rewrite (rewriteDependencies_object _ _ Hd) in H.
  destruct d as [|b|n|s|items|deps]; try discriminate;
    try (injection H as <-; rewrite (rewriteDependencies_object _ _ Hd); reflexivity).
  injection H as <-.
  rewrite (rewriteDependencies_object _ (JObj (rewriteEntries (map_to_list deps).*1 deps)))
    by apply lookup_insert_eq.
  rewrite insert_insert_eq.
  set (deps' := rewriteEntries (map_to_list deps).*1 deps).
  replace (rewriteEntries (map_to_list deps').*1 deps') with deps'; [reflexivity|].
  apply map_eq. intros key. subst deps'.
  rewrite !rewriteEntries_keys. symmetry. apply rewrittenEntry_idempotent.
Qed.

Lemma sapp_cancel_r (a b c : string) : a ++ c = b ++ c -> a = b.
Proof.
  revert b. induction a as [|x a IH]; intros b H.
  - destruct b as [|y b]; [reflexivity|].
    apply (f_equal String.length) in H. cbn in H. rewrite ?sapp_length in H. lia.
  - destruct b as [|y b].
    + apply (f_equal String.length) in H. cbn in H. rewrite ?sapp_length in H. lia.
    + simpl in H. injection H as -> H. f_equal. now apply IH.
Qed.

(** X15: two distinct dependency names starting with ['@prisma/'] are
    given distinct tarball paths. *)
Theorem X15_tarball_paths_distinct (key1 key2 : string) :
  JS.startsWith key1 "@prisma/" = true -> JS.startsWith key2 "@prisma/" = true ->
  tarballPath key1 = tarballPath key2 -> key1 = key2.
Proof.
  intros [r1 ->]%startsWith_spec [r2 ->]%startsWith_spec H.
  rewrite !tarballPath_prisma in H.
  apply (String.app_inj "/tmp/prisma-") in H.
  apply sapp_cancel_r in H. now rewrite H.
Qed.

End RewriteMore.

Lemma X12_rewrite_fails_without_dependencies_witness :
  E2E.rewriteManifests ["/repo/packages/cli/package.json"]
    [JObj {[ "name" := JStr "prisma" ]}] sample_world = (E2E.Throw E2E.TypeError, sample_world).
Proof.
  destruct (X12_rewrite_fails_without_dependencies (JObj {[ "name" := JStr "prisma" ]}))
    as [_ Hstop].
  apply Hstop. vm_compute. reflexivity.
Defined.

Lemma X13_non_object_dependencies_unchanged_witness :
  E2E.rewriteDependencies (JObj {[ "dependencies" := JArr [JStr "@prisma/debug"] ]}) =
  Some (JObj {[ "dependencies" := JArr [JStr "@prisma/debug"] ]}).
Proof.
  apply (X13_non_object_dependencies_unchanged _ (JArr [JStr "@prisma/debug"]));
    [vm_compute; reflexivity | discriminate | discriminate].
Defined.

Lemma X14_rewrite_idempotent_witness :
  E2E.rewriteDependencies
    (JObj {[ "dependencies" := JObj {[ "@prisma/debug" := JStr "/tmp/prisma-debug-0.0.0.tgz" ]} ]})
  = Some
    (JObj {[ "dependencies" := JObj {[ "@prisma/debug" := JStr "/tmp/prisma-debug-0.0.0.tgz" ]} ]}).
Proof.
  apply (X14_rewrite_idempotent
           (JObj {[ "dependencies" := JObj {[ "@prisma/debug" := JStr "workspace:*" ]} ]})).
  vm_compute. reflexivity.
Defined.

Lemma X15_tarball_paths_distinct_witness :
  E2E.tarballPath "@prisma/client" <> E2E.tarballPath "@prisma/internals".
Proof.
  intros H.
  apply (X15_tarball_paths_distinct "@prisma/client" "@prisma/internals") in H;
    [discriminate | reflexivity | reflexivity].
Defined.

(** ** More on selecting fixtures *)

Section SelectionMore.

Import E2E.

Lemma filter_sublist {A : Type} (f : A -> bool) (l : list A) : sublist (List.filter f l) l.
Proof.
  induction l as [|x l IH]; simpl; [constructor|].
  destruct (f x); now constructor.
Qed.

Lemma filter_idempotent {A : Type} (f : A -> bool) (l : list A) :
  List.filter f (List.filter f l) = List.filter f l.
Proof.
  induction l as [|x l IH]; simpl; [reflexivity|].
  destruct (f x) eqn:E; simpl; [rewrite E; now f_equal | exact IH].
Qed.

(** X16: selecting never adds or reorders fixtures (the selection is a
    sublist of the discovered names) and selecting twice with the same
    filters is selecting once. *)
Theorem X16_selection_is_a_stable_sublist (positional names : list string) :
  sublist (selectTests positional names) names /\
  selectTests positional (selectTests positional names) = selectTests positional names.
Proof.
  unfold selectTests. destruct (0 <? List.length positional)%nat.
  - split; [apply filter_sublist | apply filter_idempotent].
  - split; reflexivity.
Qed.

Lemma includes_empty (p : string) : JS.includes p "" = true.
Proof. now destruct p. Qed.

(** X17: an empty string among the positional arguments selects every
    discovered fixture: every name includes the empty string. *)
Theorem X17_empty_filter_selects_all (positional names : list string) :
  In "" positional -> selectTests positional names = names.
Proof.
  intros Hin. unfold selectTests. destruct (0 <? List.length positional)%nat; [|reflexivity].
  induction names as [|p names IH]; [reflexivity|].
  simpl. replace (existsb (fun a => JS.includes p a) positional) with true.
  - now rewrite IH.
  - symmetry. apply existsb_exists. exists "". split; [exact Hin | apply includes_empty].
Qed.

End SelectionMore.

Lemma X17_empty_filter_selects_all_witness :
  E2E.selectTests ["zzz"; ""] ["accelerate"; "extensions"] = ["accelerate"; "extensions"].
Proof.
  apply (X17_empty_filter_selects_all ["zzz"; ""] ["accelerate"; "extensions"]).
  right. left. reflexivity.
Defined.

(** ** More on the stages of a run *)

Section StagesMore.

Import E2E.

Variable h : Host.

Lemma runs_ret {A} (P : Cmd -> Prop) (a : A) : runs_only P (ret a).
Proof. intros w r w' H. injection H as _ <-. now exists []. Qed.

Lemma runs_throw {A} (P : Cmd -> Prop) (e : Exn) : runs_only P (@throw A e).
Proof. intros w r w' H. injection H as _ <-. now exists []. Qed.

Lemma runs_log (P : Cmd -> Prop) (items : list LogArg) : runs_only P (console_log items).
Proof. intros w r w' H. injection H as _ <-. now exists []. Qed.

Lemma runs_sh (P : Cmd -> Prop) (c : Cmd) : P c -> runs_only P (sh h c).
Proof.
  intros HP w r w' H. rewrite sh_unfold in H.
  destruct (_ =? _)%Z; injection H as _ <-; eexists [_]; split; try reflexivity;
    now repeat constructor.
Qed.

Lemma runs_bind {A B} (P : Cmd -> Prop) (m : M A) (k : A -> M B) :
  runs_only P m -> (forall a, runs_only P (k a)) -> runs_only P (m ≫= k).
Proof.
  intros Hm Hk w r w' H. rewrite bind_unfold in H.
  destruct (m w) as [[a|e|c] w1] eqn:Em; destruct (Hm _ _ _ Em) as (l1 & Hl1 & HP1).
  - destruct (Hk a _ _ _ H) as (l2 & Hl2 & HP2).
    exists (l2 ++ l1)%list. rewrite Hl2, Hl1, app_assoc. split; [reflexivity|].
    now apply Forall_app.
  - injection H as _ <-. now exists l1.
  - injection H as _ <-. now exists l1.
Qed.

Lemma runs_when (P : Cmd -> Prop) (b : bool) (m : M unit) :
  (b = true -> runs_only P m) -> runs_only P (when b m).
Proof. intros Hm. destruct b; [now apply Hm | apply runs_ret]. Qed.

Lemma runs_weaken {A} (P Q : Cmd -> Prop) (m : M A) :
  (forall c, P c -> Q c) -> runs_only P m -> runs_only Q m.
Proof.
  intros HPQ Hm w r w' H. destruct (Hm _ _ _ H) as (l & Hl & HP).
  exists l. split; [exact Hl|]. eapply Forall_impl; [exact HP|]. intros [c z]. apply HPQ.
Qed.

Lemma fails_ret {A} (P : Cmd -> Prop) (a : A) : fails_at P (ret a).
Proof. intros w r w' H. now injection H as <- _. Qed.

Lemma fails_log (P : Cmd -> Prop) (items : list LogArg) : fails_at P (console_log items).
Proof. intros w r w' H. now injection H as <- _. Qed.

Lemma fails_sh (P : Cmd -> Prop) (c : Cmd) : P c -> fails_at P (sh h c).
Proof.
  intros HP w r w' H. rewrite sh_unfold in H.
  destruct (Z.eqb_spec (exit_status h (history w) c) 0) as [E|E]; injection H as <- <-;
    [exact I|].
  eexists c, _, _. repeat split; auto.
Qed.

Lemma fails_bind {A B} (P : Cmd -> Prop) (m : M A) (k : A -> M B) :
  fails_at P m -> (forall a, fails_at P (k a)) -> fails_at P (m ≫= k).
Proof.
  intros Hm Hk w r w' H. rewrite bind_unfold in H.
  destruct (m w) as [[a|e|c] w1] eqn:Em; pose proof (Hm _ _ _ Em) as H1.
  - exact (Hk a _ _ _ H).
  - injection H as <- <-. exact H1.
  - destruct H1.
Qed.

Lemma fails_when (P : Cmd -> Prop) (b : bool) (m : M unit) :
  fails_at P m -> fails_at P (when b m).
Proof. intros Hm. destruct b; [exact Hm | apply fails_ret]. Qed.

Lemma cleanUp_fails_at (args : Args) : fails_at docker_command (cleanUp h args).
Proof.
  unfold cleanUp, docker_command.
  repeat first
    [ apply fails_sh; tauto
    | apply fails_when
    | apply fails_ret
    | apply fails_log
    | match goal with |- fails_at _ (if ?b then _ else _) => destruct b end
    | apply fails_bind; [|intros ?] ].
Qed.

Lemma cleanUp_runs (args : Args) : runs_only docker_command (cleanUp h args).
Proof.
  unfold cleanUp, docker_command.
  repeat first
    [ apply runs_sh; tauto
    | apply runs_when; intros _
    | apply runs_ret
    | apply runs_log
    | match goal with |- runs_only _ (if ?b then _ else _) => destruct b end
    | apply runs_bind; [|intros ?] ].
Qed.

(** X8: when the clean-up stage throws, what is thrown is the failure
    of the docker command it ran last; the run ends there with exit code
    1.  Nothing is run after that command, and the run has run docker
    commands only: no manifest has been saved. *)
Theorem X8_cleanup_failure_ends_run
    (args0 : Args) (w w0 : World) (e : Exn) :
  cleanUp h (withDefaults args0) w = (Throw e, w0) ->
  (run h (inr args0) w).1 = 1%Z /\
  history (run h (inr args0) w).2 = history w0 /\
  (exists c code older,
     e = ProcessFailed c code /\ code <> 0%Z /\ history w0 = (c, code) :: older /\
     (c = DockerVersion \/ c = ComposeDown \/ c = ComposeUpClean \/ c = ComposeUpPreClean)) /\
  exists added,
    history w0 = (added ++ history w)%list /\
    Forall (fun entry : Cmd * Z => docker_command entry.1) added.
Proof.
  intros Hclean.
  assert (Hmain : main h (inr args0) w = (Throw e, w0)).
  { unfold main, stages. now rewrite bind_unfold, Hclean. }
  unfold run. rewrite Hmain. cbn [fst snd files history].
  split; [reflexivity|]. split; [reflexivity|].
  split; [exact (cleanUp_fails_at _ _ _ _ Hclean)|].
  exact (cleanUp_runs _ _ _ _ Hclean).
Qed.

Lemma runs_writeFile (P : Cmd -> Prop) (p : string) (doc : JSValue) :
  runs_only P (writeFile p doc).
Proof. intros w r w' H. injection H as _ <-. now exists []. Qed.

Lemma runs_liftE {A} (P : Cmd -> Prop) (o : option A) (e : Exn) : runs_only P (liftE o e).
Proof. destruct o; [apply runs_ret | apply runs_throw]. Qed.

Lemma runs_rewriteManifests (P : Cmd -> Prop) (paths : list string) (objs : list JSValue) :
  runs_only P (rewriteManifests paths objs).
Proof.
  revert objs. induction paths as [|p paths IH]; intros objs; [apply runs_ret|].
  destruct objs as [|obj objs]; [apply runs_ret|].
  cbn [rewriteManifests].
  apply runs_bind; [apply runs_liftE|]. intros obj'.
  apply runs_bind; [apply runs_writeFile|]. intros _. apply IH.
Qed.

Lemma runs_load (P : Cmd -> Prop) (folders : list string) :
  runs_only P (mapM (fun p => liftE (require h p) (ModuleNotFound p)) folders).
Proof.
  intros w r w' H. apply load_keeps_world in H. subst w'. now exists [].
Qed.

Lemma prepareManifests_runs :
  runs_only (fun c => c = SaveManifests) (prepareManifests h).
Proof.
  unfold prepareManifests.
  apply runs_bind; [apply runs_log|]. intros _.
  apply runs_bind; [now apply runs_sh|]. intros _.
  apply runs_bind; [apply runs_load|]. intros objs.
  apply runs_rewriteManifests.
Qed.

(** X9: the loading and rewriting of the manifests sit before the [try]
    block.  When that stage throws (the save command fails, the loader
    throws, or an object has no [dependencies]), the run ends with exit
    code 1 without running anything after the save command: in
    particular the restore command is not run, and the files stay as the
    stage left them. *)
Theorem X9_rewrite_failure_is_not_restored
    (args0 : Args) (w w0 w1 : World) (e : Exn) :
  cleanUp h (withDefaults args0) w = (Ok tt, w0) ->
  prepareManifests h w0 = (Throw e, w1) ->
  (run h (inr args0) w).1 = 1%Z /\
  files (run h (inr args0) w).2 = files w1 /\
  exists added,
    history (run h (inr args0) w).2 = (added ++ history w0)%list /\
    Forall (fun entry : Cmd * Z => entry.1 = SaveManifests) added /\
    forall code, ~ In (RestoreManifests, code) added.
Proof.
  intros Hclean Hprep.
  assert (Hmain : main h (inr args0) w = (Throw e, w1)).
  { unfold main, stages. rewrite bind_unfold, Hclean. cbv beta iota.
    now rewrite bind_unfold, Hprep. }
  unfold run. rewrite Hmain. cbn [fst snd files history].
  split; [reflexivity|]. split; [reflexivity|].
  destruct (prepareManifests_runs _ _ _ Hprep) as (added & Hadded & Hall).
  exists added. split; [exact Hadded|]. split; [exact Hall|].
  intros code Hin. rewrite Forall_forall in Hall.
  apply list_elem_of_In in Hin. specialize (Hall _ Hin). discriminate.
Qed.

(** X11: when build and pack succeed but the restore command of the
    [finally] block fails, the run ends with exit code 1 on that
    failure: nothing is run after the restore command, no container is
    started. *)
Theorem X11_failed_restore_aborts
    (args0 : Args) (w w1 wb : World) :
  reachPacking h (withDefaults args0) w = (Ok tt, w1) ->
  buildAndPack h (withDefaults args0) w1 = (Ok tt, wb) ->
  exit_status h (history wb) RestoreManifests <> 0%Z ->
  (run h (inr args0) w).1 = 1%Z /\
  history (run h (inr args0) w).2 =
    (RestoreManifests, exit_status h (history wb) RestoreManifests) :: history wb.
Proof.
  intros Hreach Hbody Hfail.
  assert (Hpack : exists w2,
            packTarballs h (withDefaults args0) w1 =
              (Throw (ProcessFailed RestoreManifests
                        (exit_status h (history wb) RestoreManifests)), w2) /\
            history w2 =
              (RestoreManifests, exit_status h (history wb) RestoreManifests) :: history wb).
  { unfold packTarballs, try_catch_finally. rewrite Hbody.
    cbv beta iota delta [restoreOriginal mbind M_bind bind].
    rewrite sh_unfold.
    destruct (Z.eqb_spec (exit_status h (history wb) RestoreManifests) 0) as [E|E];
      [contradiction|].
    eexists. split; reflexivity. }
  destruct Hpack as (w2 & Hpack & Hhist).
  assert (Hmain : main h (inr args0) w =
            (Throw (ProcessFailed RestoreManifests
                      (exit_status h (history wb) RestoreManifests)), w2)).
  { unfold main. rewrite stages_split_packing, bind_unfold, Hreach. cbv beta iota.
    now rewrite bind_unfold, Hpack. }
  unfold run. rewrite Hmain. split; [reflexivity | exact Hhist].
Qed.

(** X18: when the filters select no fixture, a run that reaches the
    fixture stage starts no container and ends with exit code 0. *)
Theorem X18_no_fixture_selected_passes
    (args0 : Args) (w w1 : World) (tests : list string * string) :
  reachFixtures h (withDefaults args0) w = (Ok tests, w1) ->
  tests.1 = [] ->
  (run h (inr args0) w).1 = 0%Z /\
  fixturesRun (history (run h (inr args0) w).2) = fixturesRun (history w1).
Proof.
  intros Hreach Hnone.
  destruct (run_from_fixtures h args0 w w1 tests Hreach)
    as (w2 & r & w3 & _ & _ & _ & Hmain & Hok & _ & _ & Hfix).
  rewrite Hnone in Hok, Hfix. simpl in Hok. rewrite app_nil_r in Hfix.
  rewrite (Hok (fun x (Hx : False) => match Hx with end)) in Hmain.
  unfold run. rewrite Hmain. split; [reflexivity | exact Hfix].
Qed.

Lemma runs_forM {A} (P : Cmd -> Prop) (l : list A) (f : A -> M unit) :
  (forall x, In x l -> runs_only P (f x)) -> runs_only P (forM_ l f).
Proof.
  induction l as [|x l IH]; intros Hf; [apply runs_ret|].
  cbn [forM_]. apply runs_bind; [apply Hf; now left|].
  intros _. apply IH. intros y Hy. apply Hf. now right.
Qed.

(** X19: the report touches no file and the only commands it runs print
    the logs of failed fixtures; without [--verbose] it runs none. *)
Theorem X19_report_only_prints_failed_logs
    (args : Args) (jobResults : list JobResult) (w w' : World) (r : Result unit) :
  report h args jobResults w = (r, w') ->
  files w' = files w /\
  (is_true (verbose args) = false -> history w' = history w) /\
  exists added,
    history w' = (added ++ history w)%list /\
    Forall (fun entry : Cmd * Z =>
              exists x, In x jobResults /\ exitCode x <> 0%Z /\
                        entry.1 = CatLogs (logsPath h x)) added.
Proof.
  intros H.
  destruct (report_result h args jobResults w) as (r0 & w0 & Hrep & _ & _ & Hfiles & _).
  rewrite H in Hrep. injection Hrep as <- <-.
  split; [exact Hfiles|].
  assert (Hruns : forall b,
            runs_only (fun c => b = true /\ exists x, In x jobResults /\ exitCode x <> 0%Z /\
                                                c = CatLogs (logsPath h x))
              (let failedJobResults := List.filter failed jobResults in
               let passedJobResults := List.filter passed jobResults in
               when b
                 (forM_ failedJobResults (fun result =>
                    console_log [LStr ("🛑 " ++ name result ++ " failed with exit code");
                                 LNum (exitCode result)];;
                    sh h (CatLogs (logsPath h result));;
                    ret tt));;
               if (0 <? List.length failedJobResults)%nat then
                 let failedJobLogPaths := List.map (logsPath h) failedJobResults in
                 console_log [LStr ("✅ " ++ nat_to_string (List.length passedJobResults) ++ "/" ++
                                    nat_to_string (List.length jobResults) ++ " tests passed")];;
                 console_log [LStr ("🛑 " ++ nat_to_string (List.length failedJobResults) ++ "/" ++
                                    nat_to_string (List.length jobResults) ++ " tests failed");
                              LStrs failedJobLogPaths];;
                 throw (JSError "Some tests exited with a non-zero exit code")
               else
                 console_log [LStr ("✅ All " ++ nat_to_string (List.length passedJobResults) ++ "/" ++
                                    nat_to_string (List.length jobResults) ++ " tests passed")])).
  { intros b. cbv zeta.
    apply runs_bind.
    - apply runs_when. intros ->. apply runs_forM. intros x Hx.
      apply filter_In in Hx as [Hx Hfailed].
      apply runs_bind; [apply runs_log|]. intros _.
      apply runs_bind; [|intros _; apply runs_ret].
      apply runs_sh. split; [reflexivity|]. exists x. repeat split; auto.
      unfold failed in Hfailed. apply negb_true_iff, Z.eqb_neq in Hfailed. exact Hfailed.
    - intros _. destruct (0 <? _)%nat.
      + apply runs_bind; [apply runs_log|]. intros _.
        apply runs_bind; [apply runs_log|]. intros _. apply runs_throw.
      + apply runs_log. }
  destruct (Hruns (is_true (verbose args)) _ _ _ H) as (added & Hadded & Hall).
  split.
  - intros Hquiet. rewrite Hquiet in Hall. destruct added as [|entry added].
    + exact Hadded.
    + apply Forall_cons in Hall as [[Hbad _] _]. discriminate.
  - exists added. split; [exact Hadded|].
    eapply Forall_impl; [exact Hall|]. intros entry [_ Hentry]. exact Hentry.
Qed.


Lemma buildAndPack_runs (args : Args) :
  runs_only (fun c => (c = PnpmBuild /\ is_true (skipBuild args) = false) \/
                      (c = PnpmPack /\ is_true (skipPack args) = false))
    (buildAndPack h args).
Proof.
  unfold buildAndPack. apply runs_bind.
  - apply runs_when. intros Hb%negb_true_iff.
    apply runs_bind; [apply runs_log|]. intros _.
    apply runs_bind; [|intros _; apply runs_ret]. apply runs_sh. now left.
  - intros _. apply runs_when. intros Hb%negb_true_iff.
    apply runs_bind; [|intros _; apply runs_ret]. apply runs_sh. now right.
Qed.

Lemma buildAndPack_fails_at (args : Args) : fails_at (fun _ => True) (buildAndPack h args).
Proof.
  unfold buildAndPack.
  repeat first
    [ apply fails_sh; exact I
    | apply fails_when
    | apply fails_ret
    | apply fails_log
    | apply fails_bind; [|intros ?] ].
Qed.



(** X21: on every path through the [try] statement the restore command
    is the last command run; before it, the build command is run only
    without [--skipBuild] and the pack command only without
    [--skipPack], and nothing else is run. *)
Theorem X21_restore_always_runs_last
    (args : Args) (w w' : World) (r : Result unit) :
  packTarballs h args w = (r, w') ->
  exists code before,
    history w' = ((RestoreManifests, code) :: before ++ history w)%list /\
    Forall (fun entry : Cmd * Z =>
              (entry.1 = PnpmBuild /\ is_true (skipBuild args) = false) \/
              (entry.1 = PnpmPack /\ is_true (skipPack args) = false)) before.
Proof.
  unfold packTarballs, try_catch_finally.
  destruct (buildAndPack h args w) as [rb wb] eqn:Ebody.
  destruct (buildAndPack_runs args _ _ _ Ebody) as (before & Hbefore & Hall).
  pose proof (buildAndPack_fails_at args _ _ _ Ebody) as Hrb.
  destruct rb as [[]|e|c]; [| |destruct Hrb].
  - cbv beta iota delta [restoreOriginal mbind M_bind bind].
    rewrite sh_unfold. intros H.
    exists (exit_status h (history wb) RestoreManifests), before.
    split; [|exact Hall].
    destruct (_ =? _)%Z; cbv beta iota in H; injection H as _ <-; cbn [history];
      now rewrite Hbefore.
  - cbv beta iota delta [packFailed mbind M_bind bind console_log throw restoreOriginal].
    rewrite sh_unfold. cbn [history files console]. intros H.
    exists (exit_status h (history wb) RestoreManifests), before.
    split; [|exact Hall].
    destruct (_ =? _)%Z; cbv beta iota in H; injection H as _ <-; cbn [history];
      now rewrite Hbefore.
Qed.

End StagesMore.

(** ** More sample runs *)

Lemma X7_toCommonJS_exports_witness :
  exists q,
    ModuleHelpers.__toCommonJS nat string "true" sample_exports !! "PrismaClient" = Some q /\
    ModuleHelpers.read nat string q 7%nat = "7" /\
    ModuleHelpers.enumerable nat string q = true.
Proof.
  destruct (X7_toCommonJS_exports "true" sample_exports "PrismaClient") as (_ & _ & Hexport).
  destruct (Hexport (ModuleHelpers.mkProperty nat string
                       (fun counter => E2E.nat_to_string counter) true false))
    as (q & Hq & Hread & Henum).
  - vm_compute. reflexivity.
  - discriminate.
  - exists q. split; [exact Hq|]. split; [now rewrite Hread | exact Henum].
Defined.

Lemma X8_cleanup_failure_ends_run_witness :
  (E2E.run (sample_host compose_fails) (inr (sample_args [])) sample_world).1 = 1%Z /\
  E2E.history (E2E.run (sample_host compose_fails) (inr (sample_args [])) sample_world).2 =
    [(E2E.ComposeDown, 125%Z)].
Proof.
  assert (Hclean : E2E.cleanUp (sample_host compose_fails)
                     (E2E.withDefaults (sample_args [])) sample_world
                   = (E2E.Throw (E2E.ProcessFailed E2E.ComposeDown 125),
                      sample_world_compose_fails))
    by (vm_compute; reflexivity).
  destruct (X8_cleanup_failure_ends_run (sample_host compose_fails)
              (sample_args []) sample_world _ _ Hclean) as (Hcode & Hhist & _).
  split; [exact Hcode|]. rewrite Hhist. reflexivity.
Defined.

Lemma X9_rewrite_failure_is_not_restored_witness :
  (E2E.run sample_host_broken (inr (sample_args [])) sample_world).1 = 1%Z /\
  E2E.files (E2E.run sample_host_broken (inr (sample_args [])) sample_world).2
    !! "/repo/packages/client/package.json" <>
  E2E.files sample_world !! "/repo/packages/client/package.json".
Proof.
  assert (Hclean : E2E.cleanUp sample_host_broken
                     (E2E.withDefaults (sample_args [])) sample_world
                   = (E2E.Ok tt, sample_world_cleaned))
    by (vm_compute; reflexivity).
  assert (Hprep : E2E.prepareManifests sample_host_broken sample_world_cleaned
                  = (E2E.Throw E2E.TypeError, sample_world_half_rewritten))
    by (vm_compute; reflexivity).
  destruct (X9_rewrite_failure_is_not_restored sample_host_broken
              (sample_args []) sample_world _ _ _ Hclean Hprep) as (Hcode & Hfiles & _).
  split; [exact Hcode|].
  rewrite Hfiles. vm_compute. discriminate.
Defined.


Lemma X11_failed_restore_aborts_witness :
  (E2E.run (sample_host restore_fails) (inr (sample_args [])) sample_world).1 = 1%Z.
Proof.
  assert (Hreach : reachPacking (sample_host restore_fails)
                     (E2E.withDefaults (sample_args [])) sample_world
                   = (E2E.Ok tt, sample_world_restore_fails_before_pack))
    by (vm_compute; reflexivity).
  assert (Hbody : E2E.buildAndPack (sample_host restore_fails)
                    (E2E.withDefaults (sample_args [])) sample_world_restore_fails_before_pack
                  = (E2E.Ok tt, sample_world_restore_fails_built))
    by (vm_compute; reflexivity).
  apply (X11_failed_restore_aborts (sample_host restore_fails)
           (sample_args []) sample_world _ _ Hreach Hbody).
  vm_compute. discriminate.
Defined.

Lemma X18_no_fixture_selected_passes_witness :
  (E2E.run (sample_host all_succeed) (inr (sample_args ["no-such-fixture"])) sample_world).1
    = 0%Z.
Proof.
  assert (Hreach : reachFixtures (sample_host all_succeed)
                     (E2E.withDefaults (sample_args ["no-such-fixture"])) sample_world
                   = (E2E.Ok sample_tests_none, sample_world_none))
    by (vm_compute; reflexivity).
  apply (X18_no_fixture_selected_passes (sample_host all_succeed)
           (sample_args ["no-such-fixture"]) sample_world _ _ Hreach).
  reflexivity.
Defined.

Lemma X19_report_only_prints_failed_logs_witness :
  E2E.history (E2E.report (sample_host all_succeed) (E2E.withDefaults (sample_args []))
                 sample_results sample_world).2 = E2E.history sample_world.
Proof.
  destruct (X19_report_only_prints_failed_logs (sample_host all_succeed)
              (E2E.withDefaults (sample_args [])) sample_results sample_world
              (E2E.report (sample_host all_succeed) (E2E.withDefaults (sample_args []))
                 sample_results sample_world).2
              (E2E.report (sample_host all_succeed) (E2E.withDefaults (sample_args []))
                 sample_results sample_world).1) as (_ & Hquiet & _).
  - apply surjective_pairing.
  - apply Hquiet. reflexivity.
Defined.


Lemma X21_restore_always_runs_last_witness :
  exists code older,
    E2E.history (E2E.packTarballs (sample_host build_fails)
                   (E2E.withDefaults (sample_args [])) sample_world_before_pack).2 =
    (E2E.RestoreManifests, code) :: older.
Proof.
  destruct (X21_restore_always_runs_last (sample_host build_fails)
              (E2E.withDefaults (sample_args [])) sample_world_before_pack
              (E2E.packTarballs (sample_host build_fails)
                 (E2E.withDefaults (sample_args [])) sample_world_before_pack).2
              (E2E.packTarballs (sample_host build_fails)
                 (E2E.withDefaults (sample_args [])) sample_world_before_pack).1)
    as (code & before & Hhist & _).
  - apply surjective_pairing.
  - exists code. eexists. exact Hhist.
Defined.
